(** * radio-paje-go-web: the /stream gateway of server.go

    A shallow embedding of [server.go]: the object-store client
    ([selectRandomFile], [downloadFile]) and the HTTP handler ([stream]),
    over an explicit world (object-store call log and local file system)
    and an explicit outside (what the store, the operating system and the
    random source answer).  Go strings are byte strings, modelled by
    [string] (lists of 8-bit [ascii]). *)

From Stdlib Require Import String Ascii List ZArith Lia Bool.
From Stdlib Require Import Numbers.DecimalString.
From stdpp Require Import gmap strings.
Import ListNotations.

Local Open Scope string_scope.

(** ** The parts of Go's [strings] package used by the program *)

Module Strings.

Fixpoint take (n : nat) (s : string) : string :=
  match n, s with
  | S n', String c s' => String c (take n' s')
  | _, _ => ""
  end.

Fixpoint drop (n : nat) (s : string) : string :=
  match n, s with
  | S n', String _ s' => drop n' s'
  | _, _ => s
  end.

(** [strings.HasPrefix(s, p)] *)
Fixpoint HasPrefix (s p : string) {struct p} : bool :=
  match p, s with
  | EmptyString, _ => true
  | String a p', String b s' => if Ascii.eqb a b then HasPrefix s' p' else false
  | String _ _, EmptyString => false
  end.

(** [strings.Index(s, sub)]: the offset of the first instance of [sub]. *)
Fixpoint Index (s sub : string) : option nat :=
  if HasPrefix s sub then Some 0
  else match s with
       | EmptyString => None
       | String _ s' => option_map S (Index s' sub)
       end.

(** [strings.Contains(s, sub)] *)
Definition Contains (s sub : string) : bool :=
  match Index s sub with Some _ => true | None => false end.

(** [strings.Cut(s, sep)]: the text before and after the first [sep]. *)
Definition Cut (s sep : string) : string * string * bool :=
  match Index s sep with
  | Some i => (take i s, drop (i + String.length sep) s, true)
  | None => (s, "", false)
  end.

(** [strings.Split(s, sep)] for a non-empty [sep], as at every call:
    the pieces between consecutive instances of [sep].  Each round
    consumes at least one byte, so [String.length s] rounds suffice. *)
Fixpoint Split_rounds (n : nat) (s sep : string) : list string :=
  match n with
  | 0 => [s]
  | S n' =>
      match Index s sep with
      | None => [s]
      | Some i => take i s :: Split_rounds n' (drop (i + String.length sep) s) sep
      end
  end.

Definition Split (s sep : string) : list string :=
  Split_rounds (String.length s) s sep.

(** [strings.Join(elems, sep)] *)
Fixpoint Join (elems : list string) (sep : string) : string :=
  match elems with
  | [] => ""
  | [e] => e
  | e :: rest => e ++ sep ++ Join rest sep
  end.

(** [strings.Replace(s, old, new, -1)] for a non-empty [old], as at every
    call: the non-overlapping instances of [old], left to right, become
    [new].  [skip] counts the bytes of a matched instance still to be
    passed over. *)
Fixpoint Replace_from (skip : nat) (s old new : string) : string :=
  match s with
  | EmptyString => ""
  | String c s' =>
      match skip with
      | S k => Replace_from k s' old new
      | 0 =>
          if HasPrefix s old
          then new ++ Replace_from (String.length old - 1) s' old new
          else String c (Replace_from 0 s' old new)
      end
  end.

Definition Replace (s old new : string) : string := Replace_from 0 s old new.

(** [parts[:len(parts)-1]] *)
Definition init {A} (l : list A) : list A := removelast l.

End Strings.

(** ** Errors *)

(** Go [error] values, as far as the program builds or receives them. *)
Inductive error : Type :=
| errors_New (msg : string)                 (* errors.New(msg) *)
| fmt_Errorf (context : string) (cause : error)  (* fmt.Errorf("context: %w", cause) *)
| NoSuchKey                                 (* the store's object-not-found error *)
| External (msg : string).                  (* any other error of a collaborator *)

Inductive result (A : Type) : Type :=
| Ok (a : A)
| Err (e : error).
Arguments Ok {A} a.
Arguments Err {A} e.

(** [errors.Is(err, NoSuchKey)]: whether the chain of causes ends in the
    store's not-found error. *)
Fixpoint is_not_found (e : error) : bool :=
  match e with
  | NoSuchKey => true
  | fmt_Errorf _ cause => is_not_found cause
  | _ => false
  end.

(** ** The redirect encoding of [stream] (lines 184-186) *)

Definition encodeFile (randomFile : string) : string :=
  let encodedFile := Strings.Replace randomFile " " "%20" in
  let encodedFile := Strings.Replace encodedFile "#" "%23" in
  let encodedFile := Strings.Replace encodedFile "?" "%3F" in
  encodedFile.

(** [fmt.Sprintf("/stream?file=%s", encodedFile)] *)
Definition redirectURL (randomFile : string) : string :=
  "/stream?file=" ++ encodeFile randomFile.

(** The substitution the three replacements amount to, byte by byte. *)
Definition substByte (c : ascii) : string :=
  if Ascii.eqb c " " then "%20"
  else if Ascii.eqb c "#" then "%23"
  else if Ascii.eqb c "?" then "%3F"
  else String c "".

Fixpoint substAll (s : string) : string :=
  match s with
  | EmptyString => ""
  | String c s' => substByte c ++ substAll s'
  end.

(** ** The parts of Go's [strconv], [net/textproto] and [net/url] used *)

Module Strconv.

Definition digitVal (c : ascii) : option Z :=
  let n := nat_of_ascii c in
  if (48 <=? n)%nat && (n <=? 57)%nat then Some (Z.of_nat n - 48)%Z else None.

Fixpoint ParseUint_from (acc : Z) (s : string) : option Z :=
  match s with
  | EmptyString => Some acc
  | String c s' =>
      match digitVal c with
      | Some d => ParseUint_from (acc * 10 + d)%Z s'
      | None => None
      end
  end.

(** [strconv.ParseUint(s, 10, 64)]; [None] stands for any error (syntax
    or range). *)
Definition ParseUint (s : string) : option Z :=
  match s with
  | EmptyString => None
  | _ =>
      match ParseUint_from 0 s with
      | Some v => if (v <? 2 ^ 64)%Z then Some v else None
      | None => None
      end
  end.

(** [strconv.ParseInt(s, 10, 64)]; [None] stands for any error. *)
Definition ParseInt (s : string) : option Z :=
  match s with
  | EmptyString => None
  | String c s' =>
      let neg := Ascii.eqb c "-" in
      let body := if Ascii.eqb c "+" || neg then s' else s in
      match ParseUint body with
      | None => None
      | Some un =>
          let cutoff := (2 ^ 63)%Z in
          if negb neg && (cutoff <=? un)%Z then None
          else if neg && (cutoff <? un)%Z then None
          else Some (if neg then - un else un)%Z
      end
  end.

(** [strconv.FormatInt(i, 10)], the [%d] verb of [fmt]. *)
Definition FormatInt (i : Z) : string := NilZero.string_of_int (Z.to_int i).

Definition hexDigit (n : nat) : ascii :=
  if (n <? 10)%nat then ascii_of_nat (48 + n) else ascii_of_nat (87 + n).

(** [strconv.AppendInt(b, int64(c), 16)] for a byte [c]: lower-case
    hexadecimal without padding. *)
Definition FormatByteHex (c : ascii) : string :=
  let n := nat_of_ascii c in
  if (n <? 16)%nat then String (hexDigit n) ""
  else String (hexDigit (n / 16)) (String (hexDigit (n mod 16)) "").

End Strconv.

Module Textproto.

Definition isASCIISpace (b : ascii) : bool :=
  Ascii.eqb b " " || Ascii.eqb b "009" || Ascii.eqb b "010" || Ascii.eqb b "013".

Fixpoint trimLeft (s : string) : string :=
  match s with
  | String c s' => if isASCIISpace c then trimLeft s' else s
  | EmptyString => ""
  end.

Fixpoint trimRight (s : string) : string :=
  match s with
  | EmptyString => ""
  | String c s' =>
      match trimRight s' with
      | EmptyString => if isASCIISpace c then "" else String c ""
      | t => String c t
      end
  end.

(** [textproto.TrimString(s)] *)
Definition TrimString (s : string) : string := trimRight (trimLeft s).

End Textproto.

Module Url.

Definition ishex (c : ascii) : bool :=
  let n := nat_of_ascii c in
  ((48 <=? n) && (n <=? 57) || (97 <=? n) && (n <=? 102) || (65 <=? n) && (n <=? 70))%nat.

Definition unhex (c : ascii) : nat :=
  let n := nat_of_ascii c in
  if ((48 <=? n) && (n <=? 57))%nat then n - 48
  else if ((97 <=? n) && (n <=? 102))%nat then n - 97 + 10
  else if ((65 <=? n) && (n <=? 70))%nat then n - 65 + 10
  else 0.

(** [url.QueryUnescape(s)]: [%XX] becomes the byte XX and [+] a space; a
    [%] not followed by two hexadecimal digits is an error ([None]). *)
Fixpoint QueryUnescape (s : string) : option string :=
  match s with
  | EmptyString => Some ""
  | String c s' =>
      if Ascii.eqb c "%" then
        match s' with
        | String h (String l rest) =>
            if ishex h && ishex l
            then option_map (String (ascii_of_nat (unhex h * 16 + unhex l)))
                            (QueryUnescape rest)
            else None
        | _ => None
        end
      else if Ascii.eqb c "+" then option_map (String " ") (QueryUnescape s')
      else option_map (String c) (QueryUnescape s')
  end.

(** One round of the loop of [url.parseQuery] on the text [key] cut off
    before the next [&]: a pair with a semicolon, an empty pair or a pair
    that does not unescape is skipped. *)
Definition parsePair (m : gmap string (list string)) (key : string)
  : gmap string (list string) :=
  if Strings.Contains key ";" then m
  else if String.eqb key "" then m
  else
    let '(key, value, _) := Strings.Cut key "=" in
    match QueryUnescape key with
    | None => m
    | Some key =>
        match QueryUnescape value with
        | None => m
        | Some value => <[key := (default [] (m !! key) ++ [value])%list]> m
        end
    end.

(** [url.ParseQuery(query)], errors dropped as [URL.Query] does. *)
Definition ParseQuery (query : string) : gmap string (list string) :=
  fold_left parsePair (Strings.Split query "&") ∅.

(** [Values.Get(key)]: the first value of [key], or the empty string. *)
Definition Get (m : gmap string (list string)) (key : string) : string :=
  match m !! key with
  | Some (v :: _) => v
  | _ => ""
  end.

(** The raw query of a request for the URL reference [ref], as [url.Parse]
    splits it: the fragment after the first [#] is dropped, the query is
    what follows the first [?]. *)
Definition RawQuery (ref : string) : string :=
  let '(rest, _, _) := Strings.Cut ref "#" in
  let '(_, query, _) := Strings.Cut rest "?" in
  query.

(** [stringContainsCTLByte(s)]: a byte below 0x20 or the byte 0x7f. *)
Definition isCTL (c : ascii) : bool :=
  ((nat_of_ascii c <? 32) || (nat_of_ascii c =? 127))%nat.

Fixpoint stringContainsCTLByte (s : string) : bool :=
  match s with
  | EmptyString => false
  | String c s' => isCTL c || stringContainsCTLByte s'
  end.

(** The raw query of the request a client sends for the target [ref],
    which starts with [/stream]: [url.Parse] and [url.ParseRequestURI]
    refuse a target that holds a control byte (the request is then
    answered 400 before any handler runs), and cut the others as
    [RawQuery] does. *)
Definition RequestQuery (ref : string) : option string :=
  if stringContainsCTLByte ref then None else Some (RawQuery ref).

End Url.

(** ** The world the program runs in *)

(** A request sent to the object store. *)
Inductive S3Call : Type :=
| ListObjectsV2 (bucket : string)
| GetObject (bucket key : string).

(** What persists between two requests of one process: the log of the
    calls made to the object store and the local file system.  The program
    keeps no other state: [stream] builds a new client on every request and
    there is no package-level variable.  Paths are compared as written. *)
Record World : Type := mkWorld {
  remoteCalls : list S3Call;
  files : gmap string string;
  dirs : gset string        (* the directories [os.MkdirAll] was asked for *)
}.

(** The body of a retrieved object: the bytes the stream delivers and the
    error, if any, that ends it in place of the end of the data. *)
Record ObjectBody : Type := mkBody {
  delivered : string;
  readError : option error
}.

(** What the collaborators answer during one request. *)
Record Outside : Type := mkOutside {
  os_Getenv : string -> string;              (* after [godotenv.Load] *)
  config_LoadDefaultConfig : option error;
  s3_ListObjectsV2 : string -> result (list string);
  s3_GetObject : string -> string -> result ObjectBody;
  os_MkdirAll : string -> option error;
  os_Create : string -> option error;
  (** a failing write to the named file: the number of bytes that still
      reach it and the error *)
  file_Write : string -> option (nat * error);
  rand_Intn : nat -> nat
}.

Definition logCall (c : S3Call) (w : World) : World :=
  mkWorld (remoteCalls w ++ [c]) (files w) (dirs w).

Definition putFile (path content : string) (w : World) : World :=
  mkWorld (remoteCalls w) (<[path := content]> (files w)) (dirs w).

Definition putDir (dir : string) (w : World) : World :=
  mkWorld (remoteCalls w) (files w) ({[dir]} ∪ dirs w).

Definition isGetObject (c : S3Call) : bool :=
  match c with GetObject _ _ => true | ListObjectsV2 _ => false end.

(** The number of [GetObject] requests sent so far. *)
Definition getCalls (w : World) : nat :=
  length (List.filter isGetObject (remoteCalls w)).

(** What [io.Copy(file, body)] achieves on the file at [path]: the bytes
    that reach the file, which are those delivered before the first
    failure, and that failure, of the write or of the read. *)
Definition copied (o : Outside) (path : string) (body : ObjectBody)
  : string * option error :=
  match file_Write o path with
  | Some (n, e) =>
      if (n <? String.length (delivered body))%nat
      then (Strings.take n (delivered body), Some e)
      else (delivered body, readError body)
  | None => (delivered body, readError body)
  end.

Definition io_Copy (o : Outside) (path : string) (body : ObjectBody) (w : World)
  : World * option error :=
  let '(written, err) := copied o path body in
  (putFile path written w, err).

(** ** The object-store client *)

Record B2Client : Type := mkB2Client { bucketName : string }.

(** [NewB2Client]: only loading the configuration can fail; of the
    arguments, the client keeps the bucket name (the endpoint, the region
    and the credentials go to the SDK). *)
Definition NewB2Client (o : Outside) (bucketName : string) : result B2Client :=
  match config_LoadDefaultConfig o with
  | Some err => Err err
  | None => Ok (mkB2Client bucketName)
  end.

Definition listFiles (o : Outside) (b : B2Client) (w : World)
  : World * result (list string) :=
  let w := logCall (ListObjectsV2 (bucketName b)) w in
  match s3_ListObjectsV2 o (bucketName b) with
  | Err err => (w, Err err)
  | Ok contents => (w, Ok contents)
  end.

(** [rand.Intn(n)] is [Intn n]; it is documented to lie in [[0,n)], where
    the index expression cannot fail ([nth]'s default is never reached). *)
Definition selectRandomFile (Intn : nat -> nat) (fileNames : list string)
  : result string :=
  if (length fileNames =? 0)%nat then Err (errors_New "no files found")
  else
    let randomIndex := Intn (length fileNames) in
    Ok (nth randomIndex fileNames "").

Definition downloadFile (o : Outside) (b : B2Client) (fileName : string) (w : World)
  : World * result string :=
  let w := logCall (GetObject (bucketName b) fileName) w in
  match s3_GetObject o (bucketName b) fileName with
  | Err err => (w, Err (fmt_Errorf "failed to get object" err))
  | Ok output =>
      let filePath := "cache/" ++ fileName in
      let dir :=
        if Strings.Contains fileName "/"
        then "cache/" ++ Strings.Join (Strings.init (Strings.Split fileName "/")) "/"
        else "cache" in
      match os_MkdirAll o dir with
      | Some err => (w, Err (fmt_Errorf "failed to create cache directory" err))
      | None =>
          let w := putDir dir w in
          match os_Create o filePath with
          | Some err => (w, Err (fmt_Errorf "failed to create file" err))
          | None =>
              let w := putFile filePath "" w in
              match io_Copy o filePath output w with
              | (w, Some err) => (w, Err (fmt_Errorf "failed to copy file content" err))
              | (w, None) => (w, Ok filePath)
              end
          end
      end
  end.

(** ** The handler *)

(** A request to [/stream], as far as the handler and [http.ServeFile]
    read it, for a request without conditional headers ([If-Match],
    [If-None-Match], [If-Modified-Since], [If-Unmodified-Since],
    [If-Range]): its method, its raw query and its [Range] header. *)
Record Request : Type := mkRequest {
  Method : string;
  URL_RawQuery : string;
  Header_Range : string      (* empty when the header is absent *)
}.

Definition StatusOK := 200%nat.
Definition StatusPartialContent := 206%nat.
Definition StatusFound := 302%nat.
Definition StatusNotFound := 404%nat.
Definition StatusRequestedRangeNotSatisfiable := 416%nat.
Definition StatusInternalServerError := 500%nat.

(** How the handler answers: the one call on the response writer that
    every path of [stream] ends with. *)
Inductive Reply : Type :=
| http_Error (msg : string) (code : nat)
| http_Redirect (url : string) (code : nat)
| http_ServeFile (name : string).

Definition stream (o : Outside) (req : Request) (w : World) : World * Reply :=
  let keyId := os_Getenv o "KEY_ID" in
  let applicationKey := os_Getenv o "APPLICATION_KEY" in
  let bucketName := os_Getenv o "BUCKET_NAME" in
  let endpoint := os_Getenv o "ENDPOINT" in
  if String.eqb keyId "" || String.eqb applicationKey "" ||
     String.eqb bucketName "" || String.eqb endpoint ""
  then (w, http_Error "Missing required environment variables" StatusInternalServerError)
  else
    match NewB2Client o bucketName with
    | Err _ => (w, http_Error "Failed to create B2 client" StatusInternalServerError)
    | Ok b2Client =>
        let fileName := Url.Get (Url.ParseQuery (URL_RawQuery req)) "file" in
        if String.eqb fileName "" then
          match listFiles o b2Client w with
          | (w, Err _) => (w, http_Error "Failed to list files" StatusInternalServerError)
          | (w, Ok listResult) =>
              match selectRandomFile (rand_Intn o) listResult with
              | Err _ => (w, http_Error "No files available" StatusNotFound)
              | Ok randomFile =>
                  (w, http_Redirect (redirectURL randomFile) StatusFound)
              end
          end
        else
          match downloadFile o b2Client fileName w with
          | (w, Err _) => (w, http_Error "Failed to download file" StatusInternalServerError)
          | (w, Ok filePath) => (w, http_ServeFile filePath)
          end
    end.

(** ** The parts of Go's [net/http] the handler answers through

    [http.Error], [http.Redirect] and [http.ServeFile] as the standard
    library documents and implements them ([server.go] and [fs.go] of
    [net/http]), for a request without conditional headers ([If-Match],
    [If-None-Match], [If-Modified-Since], [If-Unmodified-Since],
    [If-Range]): [serveContent] is what follows [checkPreconditions]
    when no such header is present.  Of the headers, [Last-Modified] and
    the sniffed [Content-Type] of a served file are left out, and of an
    answer to several ranges only the status and the ranges are given. *)

Module Http.

Record httpRange : Type := mkRange { start : Z; length : Z }.

Inductive Payload : Type :=
| Bytes (b : string)
| MultipartByteranges (parts : list httpRange).

Record Response : Type := mkResponse {
  StatusCode : nat;
  Header : gmap string string;
  Body : Payload
}.

Definition newline : string := String "010" "".
Definition quote : string := String (ascii_of_nat 34) "".

(** [http.Error(w, msg, code)] on a writer whose headers are [h]. *)
Definition Error (h : gmap string string) (msg : string) (code : nat) : Response :=
  let h := delete "Content-Length" h in
  let h := <["Content-Type" := "text/plain; charset=utf-8"]> h in
  let h := <["X-Content-Type-Options" := "nosniff"]> h in
  mkResponse code h (Bytes (msg ++ newline)).

(** The value of a header as [Header.WriteSubset] writes it: line
    breaks become spaces, then the value is trimmed. *)
Fixpoint headerNewlineToSpace (v : string) : string :=
  match v with
  | EmptyString => ""
  | String c v' =>
      String (if Ascii.eqb c "010" || Ascii.eqb c "013" then " "%char else c)
             (headerNewlineToSpace v')
  end.

Definition written (v : string) : string :=
  Textproto.TrimString (headerNewlineToSpace v).

Fixpoint hexEscapeNonASCII (s : string) : string :=
  match s with
  | EmptyString => ""
  | String c s' =>
      if (128 <=? nat_of_ascii c)%nat
      then String "%" (Strconv.FormatByteHex c ++ hexEscapeNonASCII s')
      else String c (hexEscapeNonASCII s')
  end.

Definition htmlEscapeByte (c : ascii) : string :=
  if Ascii.eqb c "&" then "&amp;"
  else if Ascii.eqb c "<" then "&lt;"
  else if Ascii.eqb c ">" then "&gt;"
  else if Ascii.eqb c (ascii_of_nat 34) then "&#34;"
  else if Ascii.eqb c "'" then "&#39;"
  else String c "".

Fixpoint htmlEscape (s : string) : string :=
  match s with
  | EmptyString => ""
  | String c s' => htmlEscapeByte c ++ htmlEscape s'
  end.

(** [http.Redirect(w, req, url, StatusFound)] for a target that starts
    with [/stream?]: the path before the query is already clean, so the
    target is kept and only its bytes outside ASCII are escaped. *)
Definition Redirect (req : Request) (url : string) (code : nat) : Response :=
  let isGet := String.eqb (Method req) "GET" in
  let isHead := String.eqb (Method req) "HEAD" in
  let h : gmap string string := {["Location" := hexEscapeNonASCII url]} in
  let h := if isGet || isHead
           then <["Content-Type" := "text/html; charset=utf-8"]> h else h in
  let body := if isGet
              then "<a href=" ++ quote ++ htmlEscape url ++ quote ++ ">Found</a>."
                   ++ newline ++ newline
              else "" in
  mkResponse code h (Bytes body).

Inductive parsed : Type :=
| Ranges (ranges : list httpRange)
| InvalidRange            (* errors.New("invalid range") *)
| NoOverlap.              (* errNoOverlap *)

(** The loop of [parseRange] over the comma-separated specifications. *)
Fixpoint parseSpecs (specs : list string) (size : Z) (ranges : list httpRange)
  (noOverlap : bool) : parsed :=
  match specs with
  | [] => if noOverlap && (List.length ranges =? 0)%nat then NoOverlap else Ranges ranges
  | ra :: specs' =>
      let ra := Textproto.TrimString ra in
      if String.eqb ra "" then parseSpecs specs' size ranges noOverlap
      else
        let '(start, end_, ok) := Strings.Cut ra "-" in
        if negb ok then InvalidRange
        else
          let start := Textproto.TrimString start in
          let end_ := Textproto.TrimString end_ in
          if String.eqb start "" then
            if String.eqb end_ "" || Strings.HasPrefix end_ "-" then InvalidRange
            else
              match Strconv.ParseInt end_ with
              | None => InvalidRange
              | Some i =>
                  if (i <? 0)%Z then InvalidRange
                  else
                    let i := if (size <? i)%Z then size else i in
                    let r := mkRange (size - i) (size - (size - i)) in
                    parseSpecs specs' size (ranges ++ [r]) noOverlap
              end
          else
            match Strconv.ParseInt start with
            | None => InvalidRange
            | Some i =>
                if (i <? 0)%Z then InvalidRange
                else if (size <=? i)%Z then parseSpecs specs' size ranges true
                else if String.eqb end_ "" then
                  parseSpecs specs' size (ranges ++ [mkRange i (size - i)]) noOverlap
                else
                  match Strconv.ParseInt end_ with
                  | None => InvalidRange
                  | Some j =>
                      if (j <? i)%Z then InvalidRange
                      else
                        let j := if (size <=? j)%Z then (size - 1)%Z else j in
                        parseSpecs specs' size (ranges ++ [mkRange i (j - i + 1)])
                                   noOverlap
                  end
            end
  end.

(** [parseRange(s, size)] *)
Definition parseRange (s : string) (size : Z) : parsed :=
  if String.eqb s "" then Ranges []
  else if negb (Strings.HasPrefix s "bytes=") then InvalidRange
  else parseSpecs (Strings.Split (Strings.drop 6 s) ",") size [] false.

Definition sumRangesSize (ranges : list httpRange) : Z :=
  fold_left (fun acc ra => (acc + length ra)%Z) ranges 0%Z.

(** [ra.contentRange(size)] *)
Definition contentRange (ra : httpRange) (size : Z) : string :=
  "bytes " ++ Strconv.FormatInt (start ra) ++ "-"
  ++ Strconv.FormatInt (start ra + length ra - 1) ++ "/" ++ Strconv.FormatInt size.

(** [serveContent] on the bytes [content] of the opened file. *)
Definition serveContent (req : Request) (content : string) : Response :=
  let size := Z.of_nat (String.length content) in
  let answer (ranges : list httpRange) : Response :=
    let ranges := if (size <? sumRangesSize ranges)%Z then [] else ranges in
    let h : gmap string string := {["Accept-Ranges" := "bytes"]} in
    match ranges with
    | [] =>
        mkResponse StatusOK
          (<["Content-Length" := Strconv.FormatInt size]> h)
          (Bytes (if String.eqb (Method req) "HEAD" then "" else content))
    | [ra] =>
        mkResponse StatusPartialContent
          (<["Content-Length" := Strconv.FormatInt (length ra)]>
             (<["Content-Range" := contentRange ra size]> h))
          (Bytes (if String.eqb (Method req) "HEAD" then ""
                  else Strings.take (Z.to_nat (length ra))
                         (Strings.drop (Z.to_nat (start ra)) content)))
    | _ =>
        mkResponse StatusPartialContent h
          (if String.eqb (Method req) "HEAD" then Bytes ""
           else MultipartByteranges ranges)
    end in
  match parseRange (Header_Range req) size with
  | Ranges ranges => answer ranges
  | NoOverlap =>
      if (size =? 0)%Z then answer []
      else Error {["Content-Range" := "bytes */" ++ Strconv.FormatInt size]}
             "invalid range: failed to overlap" StatusRequestedRangeNotSatisfiable
  | InvalidRange => Error ∅ "invalid range" StatusRequestedRangeNotSatisfiable
  end.

(** [http.ServeFile(w, req, name)] for a request whose path is [/stream]:
    the file is opened and served, a missing file is a 404. *)
Definition ServeFile (w : World) (req : Request) (name : string) : Response :=
  match files w !! name with
  | Some content => serveContent req content
  | None => Error ∅ "404 page not found" StatusNotFound
  end.

End Http.

(** The response the client of one request receives. *)
Definition respond (w : World) (req : Request) (r : Reply) : Http.Response :=
  match r with
  | http_Error msg code => Http.Error ∅ msg code
  | http_Redirect url code => Http.Redirect req url code
  | http_ServeFile name => Http.ServeFile w req name
  end.

(** One request served from the world [w]. *)
Definition handle (o : Outside) (req : Request) (w : World) : World * Http.Response :=
  let '(w', r) := stream o req w in
  (w', respond w' req r).

(** ** Vocabulary of the properties *)

(** The required settings are present and the client can be built. *)
Definition configured (o : Outside) : Prop :=
  os_Getenv o "KEY_ID" <> "" /\ os_Getenv o "APPLICATION_KEY" <> "" /\
  os_Getenv o "BUCKET_NAME" <> "" /\ os_Getenv o "ENDPOINT" <> "" /\
  config_LoadDefaultConfig o = None.

(** The client [stream] builds. *)
Definition clientOf (o : Outside) : B2Client := mkB2Client (os_Getenv o "BUCKET_NAME").

(** [req.URL.Query().Get("file")] *)
Definition requestedFile (req : Request) : string :=
  Url.Get (Url.ParseQuery (URL_RawQuery req)) "file".

(** The value of [file] a client finds in the query of the URL [ref]. *)
Definition fileParameter (ref : string) : string :=
  Url.Get (Url.ParseQuery (Url.RawQuery ref)) "file".

(** The local operations of a download (creating the directory and the
    file, writing the file) all succeed. *)
Definition localOpsSucceed (o : Outside) : Prop :=
  (forall dir, os_MkdirAll o dir = None) /\
  (forall path, os_Create o path = None) /\
  (forall path, file_Write o path = None).

(** The key has a [..] segment. *)
Definition hasDotDot (key : string) : bool :=
  existsb (String.eqb "..") (Strings.Split key "/").

(** Whether the segments, followed from [depth] directories below the
    cache root, lead above the cache root. *)
Fixpoint leavesRoot (depth : nat) (segments : list string) : bool :=
  match segments with
  | [] => false
  | seg :: rest =>
      if String.eqb seg ".." then
        match depth with
        | 0 => true
        | S d => leavesRoot d rest
        end
      else if String.eqb seg "" || String.eqb seg "." then leavesRoot depth rest
      else leavesRoot (S depth) rest
  end.

Definition escapesCache (key : string) : bool :=
  leavesRoot 0 (Strings.Split key "/").

(** The contract of [rand.Intn]: a number in [[0,n)]. *)
Definition inRange (Intn : nat -> nat) : Prop := forall n, 0 < n -> Intn n < n.

(** The draw [r] of the random source makes the selector return [k]. *)
Definition selects (r : nat) (fileNames : list string) (k : string) : bool :=
  match selectRandomFile (fun _ => r) fileNames with
  | Ok f => String.eqb f k
  | Err _ => false
  end.

(** The draws, among the [length fileNames] equally likely ones, under
    which the selector returns [k]. *)
Definition favourable (fileNames : list string) (k : string) : list nat :=
  List.filter (fun r => selects r fileNames k) (seq 0 (length fileNames)).

(** *** The properties the code does not have, as they were stated *)

(** A second resolve after a successful first one sends no request. *)
Definition cacheIdempotent (o : Outside) (b : B2Client) (key : string) (w : World) : Prop :=
  forall w1 p, downloadFile o b key w = (w1, Ok p) ->
    getCalls (downloadFile o b key w1).1 = getCalls w1.

(** Keys with a [..] segment are refused, so no file is written outside
    the cache directory. *)
Definition traversalRejected (o : Outside) (b : B2Client) (key : string) (w : World) : Prop :=
  (hasDotDot key = true -> exists e, (downloadFile o b key w).2 = Err e) /\
  (forall w1 p, downloadFile o b key w = (w1, Ok p) -> escapesCache key = false).

(** After a failed resolve (answered by [o1]) the next resolve of the key
    (answered by [o2]) fails without a request to the store. *)
Definition stickyFailure (o1 o2 : Outside) (b : B2Client) (key : string) (w : World) : Prop :=
  forall w1 e, downloadFile o1 b key w = (w1, Err e) ->
    getCalls (downloadFile o2 b key w1).1 = getCalls w1 /\
    exists e', (downloadFile o2 b key w1).2 = Err e'.

(** A download that fails while the bytes are copied leaves no file. *)
Definition cleansUp (o : Outside) (b : B2Client) (key : string) (w : World) : Prop :=
  forall w1 e,
    downloadFile o b key w = (w1, Err (fmt_Errorf "failed to copy file content" e)) ->
    files w1 !! ("cache/" ++ key) = None.

(** A failed resolve is answered 404 for a missing object, else 500. *)
Definition statusByCause (o : Outside) (req : Request) (w : World) : Prop :=
  forall w1 e, downloadFile o (clientOf o) (requestedFile req) w = (w1, Err e) ->
    Http.StatusCode (handle o req w).2 =
      if is_not_found e then StatusNotFound else StatusInternalServerError.

(** The [Location] header of the redirect for [key]. *)
Definition locationOf (key : string) : string :=
  Http.hexEscapeNonASCII (redirectURL key).

(** The redirect for [key] leads back to [key]. *)
Definition roundTrips (key : string) : Prop :=
  fileParameter (locationOf key) = key.

(** Every instance of the byte [a] replaced by [new]. *)
Fixpoint replaceByte (a : ascii) (new s : string) : string :=
  match s with
  | EmptyString => ""
  | String c s' => (if Ascii.eqb a c then new else String c "") ++ replaceByte a new s'
  end.

(** The byte [a] occurs in [s]. *)
Fixpoint occurs (a : ascii) (s : string) : bool :=
  match s with
  | EmptyString => false
  | String c s' => Ascii.eqb a c || occurs a s'
  end.

(** Keys without the bytes that the redirect encoding leaves alone
    although they have a meaning of their own in a query. *)
Definition safeKey (key : string) : bool :=
  negb (occurs "%" key) && negb (occurs "&" key) &&
  negb (occurs "+" key) && negb (occurs ";" key).

(** What one byte of the key becomes in the [Location] header. *)
Definition wire (c : ascii) : string := Http.hexEscapeNonASCII (substByte c).

Fixpoint wireAll (key : string) : string :=
  match key with
  | EmptyString => ""
  | String c key' => wire c ++ wireAll key'
  end.

(** ** Sample collaborators *)

Definition allSet (name : string) : string := "set".

(** A store holding [objects], with a healthy disk; asked for a number
    below [n], the random source answers [draw mod n]. *)
Definition steady (objects : list (string * string)) (draw : nat) : Outside :=
  mkOutside allSet None
    (fun _ => Ok (map fst objects))
    (fun _ key =>
       match find (fun kv => String.eqb (fst kv) key) objects with
       | Some kv => Ok (mkBody (snd kv) None)
       | None => Err NoSuchKey
       end)
    (fun _ => None) (fun _ => None) (fun _ => None)
    (fun n => draw mod n).

(** As [steady], but every object's stream breaks after [n] bytes. *)
Definition breaking (objects : list (string * string)) (n : nat) : Outside :=
  mkOutside allSet None
    (fun _ => Ok (map fst objects))
    (fun _ key =>
       match find (fun kv => String.eqb (fst kv) key) objects with
       | Some kv => Ok (mkBody (Strings.take n (snd kv)) (Some (External "unexpected EOF")))
       | None => Err NoSuchKey
       end)
    (fun _ => None) (fun _ => None) (fun _ => None)
    (fun n => 0).

Definition emptyWorld : World := mkWorld [] ∅ ∅.

Definition get (query range : string) : Request := mkRequest "GET" query range.

Fixpoint repeatString (n : nat) (s : string) : string :=
  match n with
  | 0 => ""
  | S k => s ++ repeatString k s
  end.

(** A resource of 1000 bytes. *)
Definition thousand : string := repeatString 100 "0123456789".

(** ** Further vocabulary *)

(** The directory [downloadFile] asks [os.MkdirAll] for (lines 105-109). *)
Definition cacheDir (fileName : string) : string :=
  if Strings.Contains fileName "/"
  then "cache/" ++ Strings.Join (Strings.init (Strings.Split fileName "/")) "/"
  else "cache".

(** The last segment of the key. *)
Definition baseName (fileName : string) : string :=
  List.last (Strings.Split fileName "/") "".

(** None of the three bytes the redirect encoding replaces occurs. *)
Definition plain (s : string) : bool :=
  negb (occurs " " s) && negb (occurs "#" s) && negb (occurs "?" s).

(** The file the redirected request asks for, when a client follows a
    redirect whose [Location] header was set to [location]: the header
    as written is the target of the new request, which is refused when it
    holds a control byte. *)
Definition redirectedFile (location : string) : option string :=
  match Url.RequestQuery (Http.written location) with
  | Some query => Some (Url.Get (Url.ParseQuery query) "file")
  | None => None
  end.

(** The request cannot be served for its configuration: a required
    setting is empty or the client cannot be built. *)
Definition refused (o : Outside) : Prop :=
  os_Getenv o "KEY_ID" = "" \/ os_Getenv o "APPLICATION_KEY" = "" \/
  os_Getenv o "BUCKET_NAME" = "" \/ os_Getenv o "ENDPOINT" = "" \/
  config_LoadDefaultConfig o <> None.

(** A resource of 1000 bytes that is in the cache is served with correct
    ranges, as it was stated: whatever the store answers during the
    request. *)
Definition servedFromCache (o : Outside) (key : string) (w : World) : Prop :=
  forall data,
    files w !! ("cache/" ++ key) = Some data ->
    String.length data = 1000 ->
    forall req, Method req = "GET" -> requestedFile req = key ->
      (Header_Range req = "bytes=100-199" ->
       Http.StatusCode (handle o req w).2 = 206 /\
       Http.Header (handle o req w).2 !! "Content-Range" = Some "bytes 100-199/1000" /\
       Http.Body (handle o req w).2
       = Http.Bytes (Strings.take 100 (Strings.drop 100 data))) /\
      (Header_Range req = "bytes=2000-2100" ->
       Http.StatusCode (handle o req w).2 = 416) /\
      (Header_Range req = "" ->
       Http.StatusCode (handle o req w).2 = 200 /\
       Http.Body (handle o req w).2 = Http.Bytes data).

(** * Properties *)

(** ** Strings *)

Lemma app_String (c : ascii) (s t : string) : String c s ++ t = String c (s ++ t).
Proof. reflexivity. Qed.

Lemma app_empty_l (t : string) : "" ++ t = t.
Proof. reflexivity. Qed.

Lemma app_empty_r (s : string) : s ++ "" = s.
Proof.
  induction s as [|c s IH]; [reflexivity|].
  now rewrite app_String, IH.
Qed.

Lemma app_assoc_string (s1 s2 s3 : string) : (s1 ++ s2) ++ s3 = s1 ++ (s2 ++ s3).
Proof.
  induction s1 as [|c s1 IH]; [reflexivity|].
  now rewrite !app_String, IH.
Qed.

Lemma Replace_byte (a : ascii) (new s : string) :
  Strings.Replace s (String a "") new = replaceByte a new s.
Proof.
  unfold Strings.Replace.
  induction s as [|c s IH]; [reflexivity|].
  cbn [Strings.Replace_from Strings.HasPrefix String.length Nat.sub replaceByte].
  destruct (Ascii.eqb a c); cbn [Strings.HasPrefix]; rewrite IH.
  - destruct s; reflexivity.
  - reflexivity.
Qed.

Lemma replaceByte_append (a : ascii) (new s1 s2 : string) :
  replaceByte a new (s1 ++ s2) = replaceByte a new s1 ++ replaceByte a new s2.
Proof.
  induction s1 as [|c s1 IH]; [reflexivity|].
  rewrite app_String. cbn [replaceByte].
  now rewrite IH, app_assoc_string.
Qed.

Lemma encodeFile_cons (c : ascii) (s : string) :
  replaceByte "?" "%3F" (replaceByte "#" "%23" (replaceByte " " "%20" (String c s)))
  = substByte c ++
    replaceByte "?" "%3F" (replaceByte "#" "%23" (replaceByte " " "%20" s)).
Proof.
  cbn [replaceByte]. unfold substByte.
  rewrite (Ascii.eqb_sym c " "), (Ascii.eqb_sym c "#"), (Ascii.eqb_sym c "?").
  rewrite !replaceByte_append.
  destruct (Ascii.eqb " " c) eqn:E1; [reflexivity|].
  cbn [replaceByte].
  destruct (Ascii.eqb "#" c) eqn:E2; [reflexivity|].
  rewrite app_empty_r. cbn [replaceByte].
  destruct (Ascii.eqb "?" c) eqn:E3; rewrite ?app_empty_r; reflexivity.
Qed.

Lemma encodeFile_substAll (key : string) : encodeFile key = substAll key.
Proof.
  unfold encodeFile. rewrite !Replace_byte.
  induction key as [|c key IH]; [reflexivity|].
  rewrite encodeFile_cons. cbn [substAll]. now rewrite IH.
Qed.

(** ** The two paths of the handler *)

Lemma stream_configured (o : Outside) (req : Request) (w : World) :
  configured o ->
  stream o req w =
    if String.eqb (requestedFile req) "" then
      match listFiles o (clientOf o) w with
      | (w, Err _) => (w, http_Error "Failed to list files" StatusInternalServerError)
      | (w, Ok listResult) =>
          match selectRandomFile (rand_Intn o) listResult with
          | Err _ => (w, http_Error "No files available" StatusNotFound)
          | Ok randomFile => (w, http_Redirect (redirectURL randomFile) StatusFound)
          end
      end
    else
      match downloadFile o (clientOf o) (requestedFile req) w with
      | (w, Err _) => (w, http_Error "Failed to download file" StatusInternalServerError)
      | (w, Ok filePath) => (w, http_ServeFile filePath)
      end.
Proof.
  intros (Hk & Ha & Hb & He & Hc).
  unfold stream, NewB2Client, requestedFile, clientOf.
  apply String.eqb_neq in Hk, Ha, Hb, He.
  now rewrite Hk, Ha, Hb, He, Hc.
Qed.

Lemma stream_no_key (o : Outside) (req : Request) (w : World) (listResult : list string) :
  configured o ->
  requestedFile req = "" ->
  s3_ListObjectsV2 o (os_Getenv o "BUCKET_NAME") = Ok listResult ->
  stream o req w =
    (logCall (ListObjectsV2 (os_Getenv o "BUCKET_NAME")) w,
     match selectRandomFile (rand_Intn o) listResult with
     | Err _ => http_Error "No files available" StatusNotFound
     | Ok randomFile => http_Redirect (redirectURL randomFile) StatusFound
     end).
Proof.
  intros Hc Hf Hl. rewrite (stream_configured _ _ _ Hc), Hf.
  cbn [String.eqb]. unfold listFiles, clientOf. cbn [bucketName]. rewrite Hl.
  now destruct (selectRandomFile (rand_Intn o) listResult).
Qed.

Lemma stream_key (o : Outside) (req : Request) (w : World) :
  configured o ->
  requestedFile req <> "" ->
  stream o req w =
    match downloadFile o (clientOf o) (requestedFile req) w with
    | (w, Err _) => (w, http_Error "Failed to download file" StatusInternalServerError)
    | (w, Ok filePath) => (w, http_ServeFile filePath)
    end.
Proof.
  intros Hc Hf. rewrite (stream_configured _ _ _ Hc).
  apply String.eqb_neq in Hf. now rewrite Hf.
Qed.

Lemma steady_configured (objects : list (string * string)) (draw : nat) :
  configured (steady objects draw).
Proof. repeat split; discriminate. Qed.

Lemma breaking_configured (objects : list (string * string)) (n : nat) :
  configured (breaking objects n).
Proof. repeat split; discriminate. Qed.

Lemma steady_localOps (objects : list (string * string)) (draw : nat) :
  localOpsSucceed (steady objects draw).
Proof. repeat split. Qed.

(** ** The redirect encoding *)

(** C10: the redirect encoding is exactly a three-byte substitution: in
    the URL the handler redirects to, the [file] parameter is the selected
    key with every space replaced by [%20], every [#] by [%23] and every
    [?] by [%3F]; every other byte, [%], [&], [+] and [=] among them, is
    kept as it is. *)
Theorem redirect_encoding_is_three_byte_substitution (key : string) :
  encodeFile key = substAll key /\
  substByte " " = "%20" /\ substByte "#" = "%23" /\ substByte "?" = "%3F" /\
  (forall c : ascii, c <> " "%char -> c <> "#"%char -> c <> "?"%char ->
     substByte c = String c "") /\
  substByte "%" = "%" /\ substByte "&" = "&" /\ substByte "+" = "+" /\
  substByte "=" = "=" /\
  (forall o req w listResult,
     configured o ->
     requestedFile req = "" ->
     s3_ListObjectsV2 o (os_Getenv o "BUCKET_NAME") = Ok listResult ->
     selectRandomFile (rand_Intn o) listResult = Ok key ->
     (stream o req w).2 = http_Redirect ("/stream?file=" ++ substAll key) StatusFound).
Proof.
  split; [apply encodeFile_substAll|].
  do 3 (split; [reflexivity|]).
  split.
  { intros c H1 H2 H3. unfold substByte.
    apply Ascii.eqb_neq in H1, H2, H3. now rewrite H1, H2, H3. }
  do 4 (split; [reflexivity|]).
  intros o req w l Hc Hf Hl Hs.
  rewrite (stream_no_key _ _ _ _ Hc Hf Hl), Hs. cbn [snd].
  unfold redirectURL. now rewrite encodeFile_substAll.
Qed.

(** ** The random selector *)

Lemma selectRandomFile_draw (Intn : nat -> nat) (fileNames : list string) :
  fileNames <> [] ->
  selectRandomFile Intn fileNames = Ok (nth (Intn (length fileNames)) fileNames "").
Proof.
  intros Hne. unfold selectRandomFile.
  destruct fileNames as [|f rest]; [contradiction | reflexivity].
Qed.

Lemma count_matching_indices (k : string) (l : list string) (d : nat) :
  length (List.filter (fun r => String.eqb (nth (r - d) l "") k) (seq d (length l)))
  = count_occ String.string_dec l k.
Proof.
  revert d. induction l as [|a l IH]; intros d; [reflexivity|].
  cbn [length seq List.filter count_occ].
  rewrite Nat.sub_diag. cbn [nth].
  rewrite (List.filter_ext_in _ (fun r => String.eqb (nth (r - S d) l "") k)).
  - rewrite <- (IH (S d)).
    destruct (String.string_dec a k) as [->|Hak].
    + now rewrite String.eqb_refl.
    + apply String.eqb_neq in Hak. now rewrite Hak.
  - intros r Hr. apply in_seq in Hr.
    replace (r - d) with (S (r - S d)) by lia. reflexivity.
Qed.

Lemma favourable_count (fileNames : list string) (k : string) :
  length (favourable fileNames k) = count_occ String.string_dec fileNames k.
Proof.
  unfold favourable. rewrite <- (count_matching_indices k fileNames 0).
  f_equal. apply List.filter_ext_in. intros r Hr.
  unfold selects. rewrite selectRandomFile_draw.
  - now rewrite Nat.sub_0_r.
  - intros ->. destruct Hr.
Qed.

Lemma mod_inRange (r : nat) : inRange (fun n => r mod n).
Proof. intros n Hn. apply Nat.mod_upper_bound. lia. Qed.

(** C9: for every non-empty list of keys the selector returns an element
    of the list, namely the key at the index the random source draws from
    [[0, length)]; the draws being equally likely, the keys are drawn
    uniformly over the indices (a key is returned under as many of the
    [length] draws as it has occurrences), and for every index some
    admissible random source makes the selector return that index's key. *)
Theorem selectRandomFile_member_uniform_covering (fileNames : list string) :
  fileNames <> [] ->
  (forall Intn, inRange Intn ->
     exists i, i = Intn (length fileNames) /\ i < length fileNames /\
       selectRandomFile Intn fileNames = Ok (nth i fileNames "") /\
       In (nth i fileNames "") fileNames) /\
  (forall r, r < length fileNames ->
     selectRandomFile (fun _ => r) fileNames = Ok (nth r fileNames "")) /\
  (forall k, length (favourable fileNames k)
             = count_occ String.string_dec fileNames k) /\
  (forall i, i < length fileNames ->
     exists Intn, inRange Intn /\
       selectRandomFile Intn fileNames = Ok (nth i fileNames "")).
Proof.
  intros Hne.
  assert (Hlen : 0 < length fileNames) by (destruct fileNames; [contradiction | cbn; lia]).
  repeat split.
  - intros Intn Hr. exists (Intn (length fileNames)).
    pose proof (Hr _ Hlen) as Hlt.
    repeat split; auto using selectRandomFile_draw, nth_In.
  - intros r _. now apply selectRandomFile_draw.
  - apply favourable_count.
  - intros i Hi. exists (fun n => i mod n). split; [apply mod_inRange|].
    rewrite selectRandomFile_draw by assumption.
    now rewrite Nat.mod_small.
Qed.

Lemma selectRandomFile_member_uniform_covering_witness :
  selectRandomFile (fun n => 7 mod n) ["a.mp3"; "b.mp3"; "a.mp3"] = Ok "b.mp3" /\
  length (favourable ["a.mp3"; "b.mp3"; "a.mp3"] "a.mp3") = 2.
Proof.
  destruct (selectRandomFile_member_uniform_covering ["a.mp3"; "b.mp3"; "a.mp3"])
    as (Hmem & _ & Hcount & _); [discriminate|].
  split.
  - destruct (Hmem (fun n => 7 mod n) (mod_inRange 7)) as (i & -> & _ & -> & _).
    reflexivity.
  - rewrite Hcount. reflexivity.
Defined.

(** ** The empty store *)

(** C7: for every request to [/stream] without a [file] parameter, if
    the listing of the store is empty, the random selector returns its
    empty-input error and the handler answers 404, with no redirect (no
    [Location] header); the only request sent to the store is the
    listing. *)
Theorem stream_empty_store_404 (o : Outside) (req : Request) (w : World) :
  configured o ->
  requestedFile req = "" ->
  s3_ListObjectsV2 o (os_Getenv o "BUCKET_NAME") = Ok [] ->
  selectRandomFile (rand_Intn o) [] = Err (errors_New "no files found") /\
  stream o req w =
    (logCall (ListObjectsV2 (os_Getenv o "BUCKET_NAME")) w,
     http_Error "No files available" StatusNotFound) /\
  Http.StatusCode (handle o req w).2 = 404 /\
  Http.Header (handle o req w).2 !! "Location" = None /\
  (forall url code, (stream o req w).2 <> http_Redirect url code).
Proof.
  intros Hc Hf Hl.
  pose proof (stream_no_key _ _ w _ Hc Hf Hl) as Hs. cbn in Hs.
  split; [reflexivity|]. split; [exact Hs|].
  unfold handle. rewrite Hs. cbn [snd respond].
  repeat split; try reflexivity. discriminate.
Qed.

Lemma stream_empty_store_404_witness :
  Http.StatusCode (handle (steady [] 0) (get "" "") emptyWorld).2 = 404 /\
  Http.Header (handle (steady [] 0) (get "" "") emptyWorld).2 !! "Location" = None.
Proof.
  destruct (stream_empty_store_404 (steady [] 0) (get "" "") emptyWorld)
    as (_ & _ & Hstatus & Hloc & _);
    [apply steady_configured | reflexivity | reflexivity |].
  split; [exact Hstatus | exact Hloc].
Defined.

(** ** Resolving a key: [downloadFile] *)

Lemma getCalls_logCall_get (bucket key : string) (w : World) :
  getCalls (logCall (GetObject bucket key) w) = getCalls w + 1.
Proof.
  unfold getCalls, logCall. cbn [remoteCalls].
  rewrite List.filter_app, List.length_app. reflexivity.
Qed.

(** The case analysis every property of [downloadFile] starts with: one
    case per exit of the function. *)
Ltac download_cases o b key body Hcopied :=
  unfold downloadFile, io_Copy;
  destruct (s3_GetObject o (bucketName b) key) as [body|?];
  [ destruct (os_MkdirAll o _);
    [ | destruct (os_Create o _);
        [ | destruct (copied o _ body) as [? [?|]] eqn:Hcopied ] ]
  | ].

Lemma downloadFile_calls (o : Outside) (b : B2Client) (key : string) (w : World) :
  remoteCalls (downloadFile o b key w).1
  = (remoteCalls w ++ [GetObject (bucketName b) key])%list.
Proof.
  download_cases o b key body Hcopied; reflexivity.
Qed.

Lemma downloadFile_getCalls (o : Outside) (b : B2Client) (key : string) (w : World) :
  getCalls (downloadFile o b key w).1 = getCalls w + 1.
Proof.
  unfold getCalls at 1. rewrite downloadFile_calls.
  apply (getCalls_logCall_get (bucketName b) key w).
Qed.

(** The result of a resolve depends on what the collaborators answer,
    never on the world it starts from. *)
Lemma downloadFile_result_stateless (o : Outside) (b : B2Client) (key : string)
  (w w' : World) :
  (downloadFile o b key w).2 = (downloadFile o b key w').2.
Proof.
  download_cases o b key body Hcopied; reflexivity.
Qed.

Lemma downloadFile_get_fails (o : Outside) (b : B2Client) (key : string) (w : World)
  (e : error) :
  s3_GetObject o (bucketName b) key = Err e ->
  downloadFile o b key w
  = (logCall (GetObject (bucketName b) key) w, Err (fmt_Errorf "failed to get object" e)).
Proof. intros H. unfold downloadFile. now rewrite H. Qed.

Lemma files_putFile (path content : string) (w : World) :
  files (putFile path content w) !! path = Some content.
Proof. unfold putFile. cbn [files]. apply lookup_insert_eq. Qed.

Lemma downloadFile_copy (o : Outside) (b : B2Client) (key : string) (w : World)
  (body : ObjectBody) (written : string) (err : option error) :
  s3_GetObject o (bucketName b) key = Ok body ->
  (forall dir, os_MkdirAll o dir = None) ->
  os_Create o ("cache/" ++ key) = None ->
  copied o ("cache/" ++ key) body = (written, err) ->
  exists w1,
    downloadFile o b key w
    = (w1, match err with
           | Some e => Err (fmt_Errorf "failed to copy file content" e)
           | None => Ok ("cache/" ++ key)
           end) /\
    files w1 !! ("cache/" ++ key) = Some written.
Proof.
  intros Hget Hmk Hcr Hcp. unfold downloadFile, io_Copy.
  rewrite Hget, Hmk, Hcr, Hcp.
  destruct err; eexists; (split; [reflexivity | apply files_putFile]).
Qed.

Lemma copied_healthy (o : Outside) (path : string) (body : ObjectBody) :
  file_Write o path = None -> readError body = None ->
  copied o path body = (delivered body, None).
Proof. intros Hw Hr. unfold copied. now rewrite Hw, Hr. Qed.

Lemma downloadFile_succeeds (o : Outside) (b : B2Client) (key : string) (w : World)
  (body : ObjectBody) :
  s3_GetObject o (bucketName b) key = Ok body ->
  readError body = None ->
  localOpsSucceed o ->
  exists w1,
    downloadFile o b key w = (w1, Ok ("cache/" ++ key)) /\
    files w1 !! ("cache/" ++ key) = Some (delivered body).
Proof.
  intros Hget Hr (Hmk & Hcr & Hwr).
  apply (downloadFile_copy o b key w body (delivered body) None); auto.
  now apply copied_healthy.
Qed.

Lemma downloadFile_ok_inv (o : Outside) (b : B2Client) (key : string) (w w1 : World)
  (p : string) :
  downloadFile o b key w = (w1, Ok p) ->
  p = "cache/" ++ key /\
  exists body, s3_GetObject o (bucketName b) key = Ok body /\
               files w1 !! p = Some (delivered body).
Proof.
  download_cases o b key body Hcp; try discriminate.
  intros [= <- <-]. split; [reflexivity|].
  exists body. split; [reflexivity|].
  rewrite files_putFile. f_equal.
  unfold copied in Hcp.
  destruct (file_Write o _) as [[n e]|].
  - destruct (n <? _)%nat; now inversion Hcp.
  - now inversion Hcp.
Qed.

Lemma take_prefix (n : nat) (s : string) : Strings.HasPrefix s (Strings.take n s) = true.
Proof.
  revert n. induction s as [|c s IH]; intros [|n]; try reflexivity.
  cbn [Strings.take Strings.HasPrefix]. now rewrite Ascii.eqb_refl.
Qed.

Lemma HasPrefix_refl (s : string) : Strings.HasPrefix s s = true.
Proof.
  induction s as [|c s IH]; [reflexivity|].
  cbn [Strings.HasPrefix]. now rewrite Ascii.eqb_refl.
Qed.

Lemma copied_prefix (o : Outside) (path : string) (body : ObjectBody)
  (written : string) (err : option error) :
  copied o path body = (written, err) ->
  Strings.HasPrefix (delivered body) written = true.
Proof.
  unfold copied.
  destruct (file_Write o path) as [[n e]|]; [destruct (n <? _)%nat|];
    intros [= <- _]; auto using take_prefix, HasPrefix_refl.
Qed.

(** *** Resolving twice *)

(** C1, as stated, fails: after a successful resolve of [song.mp3] a
    second resolve sends a second request to the store. *)
Lemma second_resolve_fetches_again :
  ~ cacheIdempotent (steady [("song.mp3", "abc")] 0) (mkB2Client "radio")
      "song.mp3" emptyWorld.
Proof.
  intros H.
  specialize (H (downloadFile (steady [("song.mp3", "abc")] 0) (mkB2Client "radio")
                   "song.mp3" emptyWorld).1
                "cache/song.mp3" eq_refl).
  rewrite downloadFile_getCalls in H. lia.
Qed.

(** C1, amended: for every key, if a first resolve succeeds, a second
    sequential resolve of the same key in the same process does not
    consult the cache: it sends one more get request to the object store,
    and when it succeeds it returns the same local path [cache/<key>],
    whose file then holds the bytes this second request delivered. *)
Theorem resolve_twice_fetches_twice (o1 o2 : Outside) (b : B2Client) (key : string)
  (w w1 : World) (p : string) :
  downloadFile o1 b key w = (w1, Ok p) ->
  getCalls w1 = getCalls w + 1 /\
  getCalls (downloadFile o2 b key w1).1 = getCalls w1 + 1 /\
  remoteCalls (downloadFile o2 b key w1).1
  = (remoteCalls w ++ [GetObject (bucketName b) key; GetObject (bucketName b) key])%list /\
  (forall w2 p2, downloadFile o2 b key w1 = (w2, Ok p2) ->
     p2 = p /\ p = "cache/" ++ key /\
     exists body, s3_GetObject o2 (bucketName b) key = Ok body /\
                  files w2 !! p = Some (delivered body)).
Proof.
  intros H1.
  pose proof (downloadFile_getCalls o1 b key w) as Hc1.
  pose proof (downloadFile_calls o1 b key w) as Hl1.
  rewrite H1 in Hc1, Hl1. cbn [fst] in Hc1, Hl1.
  split; [exact Hc1|]. split; [apply downloadFile_getCalls|].
  split.
  - rewrite downloadFile_calls, Hl1, <- List.app_assoc. reflexivity.
  - intros w2 p2 H2.
    destruct (downloadFile_ok_inv _ _ _ _ _ _ H1) as (-> & _).
    destruct (downloadFile_ok_inv _ _ _ _ _ _ H2) as (-> & body & Hget & Hfile).
    do 2 (split; [reflexivity|]). now exists body.
Qed.

Lemma resolve_twice_fetches_twice_witness :
  remoteCalls
    (downloadFile (steady [("song.mp3", "xyz")] 0) (mkB2Client "radio") "song.mp3"
       (downloadFile (steady [("song.mp3", "abc")] 0) (mkB2Client "radio")
          "song.mp3" emptyWorld).1).1
  = [GetObject "radio" "song.mp3"; GetObject "radio" "song.mp3"].
Proof.
  destruct (resolve_twice_fetches_twice
              (steady [("song.mp3", "abc")] 0) (steady [("song.mp3", "xyz")] 0)
              (mkB2Client "radio") "song.mp3" emptyWorld
              (downloadFile (steady [("song.mp3", "abc")] 0) (mkB2Client "radio")
                 "song.mp3" emptyWorld).1
              "cache/song.mp3" eq_refl) as (_ & _ & Hcalls & _).
  exact Hcalls.
Defined.

(** *** Keys with [..] segments *)

(** C2, as stated, fails: the key [../secret.mp3] is accepted and its
    bytes are written outside the cache directory. *)
Lemma dotdot_key_is_accepted :
  ~ traversalRejected (steady [("../secret.mp3", "abc")] 0) (mkB2Client "radio")
      "../secret.mp3" emptyWorld.
Proof.
  intros [Hreject _].
  destruct (Hreject eq_refl) as [e He].
  discriminate He.
Qed.

(** C2, amended: resolve neither normalizes nor validates the key.  For
    every key, keys with [..] segments included, a resolve that succeeds
    has written the object to the path [cache/<key>] with the key exactly
    as given, and it does succeed whenever the store delivers the object
    and the local file operations succeed; that path can lie outside the
    cache directory. *)
Theorem resolve_uses_key_as_path (o : Outside) (b : B2Client) (key : string)
  (w : World) (body : ObjectBody) :
  s3_GetObject o (bucketName b) key = Ok body ->
  readError body = None ->
  localOpsSucceed o ->
  (exists w1,
     downloadFile o b key w = (w1, Ok ("cache/" ++ key)) /\
     files w1 !! ("cache/" ++ key) = Some (delivered body)) /\
  (forall w1 p, downloadFile o b key w = (w1, Ok p) -> p = "cache/" ++ key).
Proof.
  intros Hget Hr Hlocal. split.
  - now apply downloadFile_succeeds.
  - intros w1 p H. now destruct (downloadFile_ok_inv _ _ _ _ _ _ H).
Qed.

Lemma resolve_uses_key_as_path_witness :
  hasDotDot "../secret.mp3" = true /\
  escapesCache "../secret.mp3" = true /\
  exists w1,
    downloadFile (steady [("../secret.mp3", "abc")] 0) (mkB2Client "radio")
      "../secret.mp3" emptyWorld = (w1, Ok "cache/../secret.mp3") /\
    files w1 !! "cache/../secret.mp3" = Some "abc".
Proof.
  split; [reflexivity|]. split; [reflexivity|].
  destruct (resolve_uses_key_as_path
              (steady [("../secret.mp3", "abc")] 0) (mkB2Client "radio")
              "../secret.mp3" emptyWorld (mkBody "abc" None)
              eq_refl eq_refl (steady_localOps _ _)) as [Hex _].
  exact Hex.
Defined.

(** *** Resolving after a failure *)

(** C3, as stated, fails: after a failed resolve of [song.mp3] (the store
    does not hold it yet) the next resolve asks the store again, and
    succeeds once the store holds the object. *)
Lemma failure_is_not_sticky :
  ~ stickyFailure (steady [] 0) (steady [("song.mp3", "abc")] 0) (mkB2Client "radio")
      "song.mp3" emptyWorld.
Proof.
  intros H.
  destruct (H (logCall (GetObject "radio" "song.mp3") emptyWorld)
              (fmt_Errorf "failed to get object" NoSuchKey) eq_refl) as [Hcalls _].
  rewrite downloadFile_getCalls in Hcalls. lia.
Qed.

(** C3, amended: for every key X, if the first resolve of X fails with a
    download error, the failure is not remembered: a second resolve of X
    in the same process sends a new get request to the object store and
    its result is the one this request produces, as if the first resolve
    had not happened: an error if the store fails again, the local path
    (and a served file in place of an error response) if the store now
    delivers the object and the local file operations succeed. *)
Theorem resolve_after_failure_fetches_again (o1 o2 : Outside) (b : B2Client)
  (key : string) (w w1 : World) (e : error) :
  downloadFile o1 b key w = (w1, Err e) ->
  getCalls (downloadFile o2 b key w1).1 = getCalls w1 + 1 /\
  remoteCalls (downloadFile o2 b key w1).1
  = (remoteCalls w ++ [GetObject (bucketName b) key; GetObject (bucketName b) key])%list /\
  (downloadFile o2 b key w1).2 = (downloadFile o2 b key w).2 /\
  (forall e2, s3_GetObject o2 (bucketName b) key = Err e2 ->
     (downloadFile o2 b key w1).2 = Err (fmt_Errorf "failed to get object" e2)) /\
  (forall body,
     s3_GetObject o2 (bucketName b) key = Ok body ->
     readError body = None ->
     localOpsSucceed o2 ->
     (downloadFile o2 b key w1).2 = Ok ("cache/" ++ key) /\
     (forall req, configured o2 -> b = clientOf o2 -> requestedFile req = key ->
        key <> "" ->
        (stream o2 req w1).2 = http_ServeFile ("cache/" ++ key))).
Proof.
  intros H1.
  split; [apply downloadFile_getCalls|].
  split.
  { pose proof (downloadFile_calls o1 b key w) as Hl1.
    rewrite H1 in Hl1. cbn [fst] in Hl1.
    rewrite downloadFile_calls, Hl1, <- List.app_assoc. reflexivity. }
  split; [apply downloadFile_result_stateless|].
  split.
  - intros e2 He2. now rewrite (downloadFile_get_fails _ _ _ _ _ He2).
  - intros body Hget Hr Hlocal.
    destruct (downloadFile_succeeds o2 b key w1 body Hget Hr Hlocal) as (w2 & H2 & _).
    split; [now rewrite H2|].
    intros req Hc -> Hf Hne. rewrite <- Hf in Hne.
    rewrite (stream_key _ _ _ Hc Hne), Hf, H2. reflexivity.
Qed.

Lemma resolve_after_failure_fetches_again_witness :
  getCalls
    (downloadFile (steady [("song.mp3", "abc")] 0) (mkB2Client "radio") "song.mp3"
       (logCall (GetObject "radio" "song.mp3") emptyWorld)).1 = 2 /\
  (downloadFile (steady [("song.mp3", "abc")] 0) (mkB2Client "radio") "song.mp3"
     (logCall (GetObject "radio" "song.mp3") emptyWorld)).2 = Ok "cache/song.mp3".
Proof.
  destruct (resolve_after_failure_fetches_again
              (steady [] 0) (steady [("song.mp3", "abc")] 0) (mkB2Client "radio")
              "song.mp3" emptyWorld
              (logCall (GetObject "radio" "song.mp3") emptyWorld)
              (fmt_Errorf "failed to get object" NoSuchKey) eq_refl)
    as (Hcalls & _ & _ & _ & Hok).
  split; [exact Hcalls|].
  destruct (Hok (mkBody "abc" None) eq_refl eq_refl (steady_localOps _ _)) as [Hres _].
  exact Hres.
Defined.

(** *** A download that breaks off *)

(** C4, as stated, fails: when the stream of [song.mp3] breaks after four
    bytes, the resolve fails and the four bytes stay in the cache. *)
Lemma partial_file_is_left :
  ~ cleansUp (breaking [("song.mp3", "abcdefgh")] 4) (mkB2Client "radio")
      "song.mp3" emptyWorld.
Proof.
  intros H.
  specialize (H (downloadFile (breaking [("song.mp3", "abcdefgh")] 4)
                   (mkB2Client "radio") "song.mp3" emptyWorld).1
                (External "unexpected EOF") eq_refl).
  discriminate H.
Qed.

(** C4, amended: for every key, if the download fails while the remote
    bytes are copied to the local file (a failure of the read or of the
    write after the local file was created), resolve propagates the
    error, wrapped as "failed to copy file content", and does not remove
    the local file: it stays under the cache root at [cache/<key>] and
    holds the bytes that reached it, a prefix of the object's bytes. *)
Theorem failed_copy_leaves_partial_file (o : Outside) (b : B2Client) (key : string)
  (w : World) (body : ObjectBody) (partial : string) (err : error) :
  s3_GetObject o (bucketName b) key = Ok body ->
  (forall dir, os_MkdirAll o dir = None) ->
  os_Create o ("cache/" ++ key) = None ->
  copied o ("cache/" ++ key) body = (partial, Some err) ->
  exists w1,
    downloadFile o b key w = (w1, Err (fmt_Errorf "failed to copy file content" err)) /\
    files w1 !! ("cache/" ++ key) = Some partial /\
    Strings.HasPrefix (delivered body) partial = true.
Proof.
  intros Hget Hmk Hcr Hcp.
  destruct (downloadFile_copy o b key w body partial (Some err) Hget Hmk Hcr Hcp)
    as (w1 & Hd & Hf).
  exists w1. repeat split; eauto using copied_prefix.
Qed.

Lemma failed_copy_leaves_partial_file_witness :
  exists w1,
    downloadFile (breaking [("song.mp3", "abcdefgh")] 4) (mkB2Client "radio")
      "song.mp3" emptyWorld
    = (w1, Err (fmt_Errorf "failed to copy file content" (External "unexpected EOF"))) /\
    files w1 !! "cache/song.mp3" = Some "abcd".
Proof.
  destruct (failed_copy_leaves_partial_file
              (breaking [("song.mp3", "abcdefgh")] 4) (mkB2Client "radio")
              "song.mp3" emptyWorld
              (mkBody "abcd" (Some (External "unexpected EOF"))) "abcd"
              (External "unexpected EOF")
              eq_refl (fun _ => eq_refl) eq_refl eq_refl) as (w1 & Hd & Hf & _).
  exists w1. split; [exact Hd | exact Hf].
Defined.

(** *** The status of a failed download *)

(** C5, as stated, fails: a key the store does not hold is answered 500,
    not 404. *)
Lemma missing_object_is_500 :
  ~ statusByCause (steady [] 0) (get "file=gone.mp3" "") emptyWorld.
Proof.
  intros H.
  specialize (H (logCall (GetObject "set" "gone.mp3") emptyWorld)
                (fmt_Errorf "failed to get object" NoSuchKey) eq_refl).
  discriminate H.
Qed.

(** C5, amended: for every requested key whose resolve fails, the HTTP
    response status is 500 with the message "Failed to download file",
    whatever the failure: the handler does not tell an object-not-found
    error of the store from any other. *)
Theorem failed_download_is_500 (o : Outside) (req : Request) (w w1 : World)
  (e : error) :
  configured o ->
  requestedFile req <> "" ->
  downloadFile o (clientOf o) (requestedFile req) w = (w1, Err e) ->
  stream o req w = (w1, http_Error "Failed to download file" StatusInternalServerError) /\
  Http.StatusCode (handle o req w).2 = 500 /\
  Http.Body (handle o req w).2 = Http.Bytes ("Failed to download file" ++ Http.newline).
Proof.
  intros Hc Hf Hd.
  assert (Hs : stream o req w
               = (w1, http_Error "Failed to download file" StatusInternalServerError))
    by now rewrite (stream_key _ _ _ Hc Hf), Hd.
  split; [exact Hs|]. unfold handle. rewrite Hs. split; reflexivity.
Qed.

Lemma failed_download_is_500_witness :
  is_not_found (fmt_Errorf "failed to get object" NoSuchKey) = true /\
  Http.StatusCode (handle (steady [] 0) (get "file=gone.mp3" "") emptyWorld).2 = 500.
Proof.
  split; [reflexivity|].
  destruct (failed_download_is_500 (steady [] 0) (get "file=gone.mp3" "") emptyWorld
              (logCall (GetObject "set" "gone.mp3") emptyWorld)
              (fmt_Errorf "failed to get object" NoSuchKey)
              (steady_configured _ _)) as (_ & Hstatus & _);
    [discriminate | reflexivity | exact Hstatus].
Defined.

(** ** Serving the file *)

Lemma length_take (n : nat) (s : string) :
  String.length (Strings.take n s) = Nat.min n (String.length s).
Proof.
  revert s. induction n as [|n IH]; intros [|c s]; try reflexivity.
  cbn [Strings.take String.length Nat.min]. now rewrite IH.
Qed.

Lemma length_drop (n : nat) (s : string) :
  String.length (Strings.drop n s) = String.length s - n.
Proof.
  revert s. induction n as [|n IH]; intros [|c s]; try reflexivity.
  cbn [Strings.drop String.length Nat.sub]. apply IH.
Qed.

Lemma get_take (i n : nat) (s : string) :
  i < n -> String.get i (Strings.take n s) = String.get i s.
Proof.
  revert i s. induction n as [|n IH]; intros i s Hi; [lia|].
  destruct s as [|c s]; [reflexivity|].
  destruct i as [|i]; [reflexivity|].
  cbn [Strings.take String.get]. apply IH. lia.
Qed.

Lemma get_drop (i n : nat) (s : string) :
  String.get i (Strings.drop n s) = String.get (n + i) s.
Proof.
  revert s. induction n as [|n IH]; intros s; [reflexivity|].
  destruct s as [|c s]; [now destruct i|].
  cbn [Strings.drop Nat.add String.get]. apply IH.
Qed.

(** A successful download is followed by serving the downloaded bytes. *)
Lemma handle_serves_download (o : Outside) (req : Request) (w : World)
  (body : ObjectBody) :
  configured o ->
  requestedFile req <> "" ->
  s3_GetObject o (os_Getenv o "BUCKET_NAME") (requestedFile req) = Ok body ->
  readError body = None ->
  localOpsSucceed o ->
  (handle o req w).2 = Http.serveContent req (delivered body).
Proof.
  intros Hc Hf Hget Hr Hlocal.
  destruct (downloadFile_succeeds o (clientOf o) (requestedFile req) w body Hget Hr Hlocal)
    as (w1 & Hd & Hfile).
  unfold handle. rewrite (stream_key _ _ _ Hc Hf), Hd.
  cbn [snd respond]. unfold Http.ServeFile. now rewrite Hfile.
Qed.

Lemma serveContent_whole (req : Request) (content : string) :
  Header_Range req = "" ->
  Method req = "GET" ->
  Http.serveContent req content
  = Http.mkResponse StatusOK
      (<["Content-Length" := Strconv.FormatInt (Z.of_nat (String.length content))]>
         {["Accept-Ranges" := "bytes"]})
      (Http.Bytes content).
Proof.
  intros Hr Hm. unfold Http.serveContent. rewrite Hr, Hm.
  cbn [Http.parseRange String.eqb Http.sumRangesSize fold_left].
  destruct (Z.of_nat (String.length content) <? 0)%Z; reflexivity.
Qed.

Lemma serveContent_single (req : Request) (content : string) (ra : Http.httpRange) :
  Http.parseRange (Header_Range req) (Z.of_nat (String.length content))
  = Http.Ranges [ra] ->
  (Http.length ra <= Z.of_nat (String.length content))%Z ->
  Method req = "GET" ->
  Http.serveContent req content
  = Http.mkResponse StatusPartialContent
      (<["Content-Length" := Strconv.FormatInt (Http.length ra)]>
         (<["Content-Range" := Http.contentRange ra (Z.of_nat (String.length content))]>
            {["Accept-Ranges" := "bytes"]}))
      (Http.Bytes (Strings.take (Z.to_nat (Http.length ra))
                     (Strings.drop (Z.to_nat (Http.start ra)) content))).
Proof.
  intros Hp Hle Hm. unfold Http.serveContent. rewrite Hp, Hm.
  cbn [Http.sumRangesSize fold_left]. rewrite Z.add_0_l.
  apply Z.ltb_ge in Hle. rewrite Hle. reflexivity.
Qed.

Lemma serveContent_no_overlap (req : Request) (content : string) :
  Http.parseRange (Header_Range req) (Z.of_nat (String.length content))
  = Http.NoOverlap ->
  String.length content <> 0 ->
  Http.serveContent req content
  = Http.Error
      {["Content-Range" := "bytes */" ++ Strconv.FormatInt (Z.of_nat (String.length content))]}
      "invalid range: failed to overlap" StatusRequestedRangeNotSatisfiable.
Proof.
  intros Hp Hne. unfold Http.serveContent. rewrite Hp.
  destruct (Z.of_nat (String.length content) =? 0)%Z eqn:E; [|reflexivity].
  apply Z.eqb_eq in E. lia.
Qed.

(** C8, as stated, fails: a resource of 1000 bytes in the cache is not
    what the handler serves.  When the store does not deliver the object
    during the request, every such request is answered 500; when it
    delivers 50 other bytes, [Range: bytes=100-199] is answered 416. *)
Lemma cached_resource_is_not_what_is_served :
  ~ servedFromCache (steady [] 0) "song.mp3"
      (putFile "cache/song.mp3" thousand emptyWorld) /\
  ~ servedFromCache (steady [("song.mp3", repeatString 5 "0123456789")] 0) "song.mp3"
      (putFile "cache/song.mp3" thousand emptyWorld).
Proof.
  split; intros H.
  - destruct (H thousand eq_refl eq_refl (get "file=song.mp3" "") eq_refl eq_refl)
      as (_ & _ & Hall).
    destruct (Hall eq_refl) as [Hstatus _]. discriminate Hstatus.
  - destruct (H thousand eq_refl eq_refl (get "file=song.mp3" "bytes=100-199")
                eq_refl eq_refl) as (Hpart & _).
    destruct (Hpart eq_refl) as [Hstatus _]. discriminate Hstatus.
Qed.

(** C8, amended: the handler serves what the request has just
    downloaded.  When, during the request, the store delivers a resource
    of 1000 bytes for the named key and the local file operations
    succeed, a GET request without conditional headers and with
    [Range: bytes=100-199] is answered 206 with
    [Content-Range: bytes 100-199/1000] and a body of exactly 100 bytes,
    the bytes 100 to 199 of the resource; [Range: bytes=2000-2100] is
    answered 416; a request without [Range] is answered 200 with all the
    1000 bytes; whatever the cache held before. *)
Theorem range_requests_on_1000_bytes (o : Outside) (w : World) (key data : string) :
  configured o ->
  key <> "" ->
  s3_GetObject o (os_Getenv o "BUCKET_NAME") key = Ok (mkBody data None) ->
  localOpsSucceed o ->
  String.length data = 1000 ->
  (forall req, Method req = "GET" -> requestedFile req = key ->
     Header_Range req = "bytes=100-199" ->
     exists body,
       Http.StatusCode (handle o req w).2 = 206 /\
       Http.Header (handle o req w).2 !! "Content-Range" = Some "bytes 100-199/1000" /\
       Http.Header (handle o req w).2 !! "Content-Length" = Some "100" /\
       Http.Body (handle o req w).2 = Http.Bytes body /\
       String.length body = 100 /\
       (forall i, i < 100 -> String.get i body = String.get (100 + i) data)) /\
  (forall req, Method req = "GET" -> requestedFile req = key ->
     Header_Range req = "bytes=2000-2100" ->
     Http.StatusCode (handle o req w).2 = 416 /\
     Http.Header (handle o req w).2 !! "Content-Range" = Some "bytes */1000") /\
  (forall req, Method req = "GET" -> requestedFile req = key ->
     Header_Range req = "" ->
     Http.StatusCode (handle o req w).2 = 200 /\
     Http.Header (handle o req w).2 !! "Content-Length" = Some "1000" /\
     Http.Header (handle o req w).2 !! "Content-Range" = None /\
     Http.Body (handle o req w).2 = Http.Bytes data).
Proof.
  intros Hc Hne Hget Hlocal Hlen.
  assert (Hserve : forall req, requestedFile req = key ->
            (handle o req w).2 = Http.serveContent req data).
  { intros req Hf. rewrite <- Hf in Hne, Hget.
    apply (handle_serves_download o req w (mkBody data None)); auto. }
  split; [|split].
  - intros req Hm Hf Hr. rewrite (Hserve req Hf).
    rewrite (serveContent_single req data (Http.mkRange 100 100));
      [| rewrite Hr, Hlen; reflexivity | rewrite Hlen; cbn; lia | exact Hm].
    rewrite Hlen.
    exists (Strings.take 100 (Strings.drop 100 data)).
    split; [reflexivity|]. split; [reflexivity|]. split; [reflexivity|].
    split; [reflexivity|]. split.
    + rewrite length_take, length_drop, Hlen. reflexivity.
    + intros i Hi. now rewrite get_take, get_drop.
  - intros req Hm Hf Hr. rewrite (Hserve req Hf).
    rewrite (serveContent_no_overlap req data);
      [| rewrite Hr, Hlen; reflexivity | rewrite Hlen; discriminate].
    rewrite Hlen. split; reflexivity.
  - intros req Hm Hf Hr. rewrite (Hserve req Hf).
    rewrite (serveContent_whole req data Hr Hm), Hlen.
    repeat split; reflexivity.
Qed.

Lemma range_requests_on_1000_bytes_witness :
  Http.StatusCode
    (handle (steady [("song.mp3", thousand)] 0) (get "file=song.mp3" "bytes=100-199")
       emptyWorld).2 = 206 /\
  Http.StatusCode
    (handle (steady [("song.mp3", thousand)] 0) (get "file=song.mp3" "bytes=2000-2100")
       emptyWorld).2 = 416 /\
  Http.Body
    (handle (steady [("song.mp3", thousand)] 0) (get "file=song.mp3" "") emptyWorld).2
  = Http.Bytes thousand.
Proof.
  destruct (range_requests_on_1000_bytes
              (steady [("song.mp3", thousand)] 0) emptyWorld "song.mp3" thousand
              (steady_configured _ _))
    as (Hpart & Hout & Hall);
    [discriminate | reflexivity | apply steady_localOps | reflexivity |].
  split; [|split].
  - destruct (Hpart (get "file=song.mp3" "bytes=100-199") eq_refl eq_refl eq_refl)
      as (body & Hstatus & _).
    exact Hstatus.
  - destruct (Hout (get "file=song.mp3" "bytes=2000-2100") eq_refl eq_refl eq_refl)
      as (Hstatus & _).
    exact Hstatus.
  - destruct (Hall (get "file=song.mp3" "") eq_refl eq_refl eq_refl)
      as (_ & _ & _ & Hbody).
    exact Hbody.
Defined.

Lemma redirect_encoding_is_three_byte_substitution_witness :
  encodeFile "a b#c?d%&+=" = "a%20b%23c%3Fd%&+=" /\
  (stream (steady [("a b#c?d%&+=", "abc")] 0) (get "" "") emptyWorld).2
  = http_Redirect "/stream?file=a%20b%23c%3Fd%&+=" StatusFound.
Proof.
  destruct (redirect_encoding_is_three_byte_substitution "a b#c?d%&+=")
    as (Henc & _ & _ & _ & _ & _ & _ & _ & _ & Hstream).
  split.
  - rewrite Henc. reflexivity.
  - apply (Hstream (steady [("a b#c?d%&+=", "abc")] 0) (get "" "") emptyWorld
             ["a b#c?d%&+="] (steady_configured _ _) eq_refl eq_refl eq_refl).
Defined.

(** ** Following the redirect *)

(** C6, where the code falls short of it: the key [rock&roll.mp3] is
    redirected with its [&] as it is, and the [file] parameter of the
    redirect URL decodes to [rock]; likewise a [+] comes back as a space
    and a key with a [%] that starts no escape comes back empty.  A key
    with a space, a [#] and a [?] does come back as it was. *)
Theorem redirect_loses_reserved_bytes :
  Http.Header (handle (steady [("rock&roll.mp3", "abc")] 0) (get "" "") emptyWorld).2
    !! "Location" = Some "/stream?file=rock&roll.mp3" /\
  fileParameter "/stream?file=rock&roll.mp3" = "rock" /\
  ~ roundTrips "rock&roll.mp3" /\
  fileParameter (locationOf "a+b.mp3") = "a b.mp3" /\
  fileParameter (locationOf "100%.mp3") = "" /\
  locationOf "a b#c?d.mp3" = "/stream?file=a%20b%23c%3Fd.mp3" /\
  roundTrips "a b#c?d.mp3".
Proof.
  repeat split; try reflexivity. discriminate.
Qed.

(** *** The keys that do come back *)

Lemma hexEscapeNonASCII_app (s t : string) :
  Http.hexEscapeNonASCII (s ++ t)
  = Http.hexEscapeNonASCII s ++ Http.hexEscapeNonASCII t.
Proof.
  induction s as [|c s IH]; [reflexivity|].
  rewrite app_String. cbn [Http.hexEscapeNonASCII]. rewrite IH.
  destruct (128 <=? nat_of_ascii c)%nat;
    now rewrite ?app_String, ?app_assoc_string.
Qed.

Lemma locationOf_wireAll (key : string) :
  locationOf key = "/stream?file=" ++ wireAll key.
Proof.
  unfold locationOf, redirectURL.
  rewrite hexEscapeNonASCII_app, encodeFile_substAll. f_equal.
  induction key as [|c key IH]; [reflexivity|].
  cbn [substAll wireAll]. now rewrite hexEscapeNonASCII_app, IH.
Qed.

Lemma occurs_app (a : ascii) (s t : string) :
  occurs a (s ++ t) = occurs a s || occurs a t.
Proof.
  induction s as [|c s IH]; [reflexivity|].
  rewrite app_String. cbn [occurs]. now rewrite IH, orb_assoc.
Qed.

Lemma Index_absent_byte (a : ascii) (s : string) :
  occurs a s = false -> Strings.Index s (String a "") = None.
Proof.
  induction s as [|c s IH]; [reflexivity|].
  cbn [occurs Strings.Index Strings.HasPrefix]. intros H.
  apply orb_false_elim in H as [Hac Hs].
  rewrite Hac, (IH Hs). reflexivity.
Qed.

Lemma Split_absent_byte (a : ascii) (s : string) :
  occurs a s = false -> Strings.Split s (String a "") = [s].
Proof.
  intros H. unfold Strings.Split.
  destruct (String.length s); cbn [Strings.Split_rounds];
    [reflexivity | now rewrite (Index_absent_byte a s H)].
Qed.

Lemma wire_has_no_hash (c : ascii) : occurs "#" (wire c) = false.
Proof. destruct c as [[] [] [] [] [] [] [] []]; reflexivity. Qed.

Lemma wire_has_no_ampersand (c : ascii) :
  Ascii.eqb "&" c = false -> occurs "&" (wire c) = false.
Proof. destruct c as [[] [] [] [] [] [] [] []]; intros H; try reflexivity; discriminate H. Qed.

Lemma wire_has_no_semicolon (c : ascii) :
  Ascii.eqb ";" c = false -> occurs ";" (wire c) = false.
Proof. destruct c as [[] [] [] [] [] [] [] []]; intros H; try reflexivity; discriminate H. Qed.

Lemma QueryUnescape_wire (c : ascii) (rest : string) :
  Ascii.eqb "%" c = false -> Ascii.eqb "+" c = false ->
  Url.QueryUnescape (wire c ++ rest) = option_map (String c) (Url.QueryUnescape rest).
Proof.
  destruct c as [[] [] [] [] [] [] [] []]; intros H1 H2;
    try discriminate H1; try discriminate H2; reflexivity.
Qed.

Lemma safeKey_cons (c : ascii) (key : string) :
  safeKey (String c key) = true ->
  (Ascii.eqb "%" c = false /\ Ascii.eqb "&" c = false /\
   Ascii.eqb "+" c = false /\ Ascii.eqb ";" c = false) /\
  safeKey key = true.
Proof.
  unfold safeKey. cbn [occurs].
  destruct (Ascii.eqb "%" c), (Ascii.eqb "&" c), (Ascii.eqb "+" c), (Ascii.eqb ";" c),
    (occurs "%" key), (occurs "&" key), (occurs "+" key), (occurs ";" key);
    cbn [orb negb andb]; try discriminate.
  intros _. repeat split.
Qed.

Lemma wireAll_safe (key : string) :
  safeKey key = true ->
  occurs "#" (wireAll key) = false /\
  occurs "&" (wireAll key) = false /\
  occurs ";" (wireAll key) = false /\
  Url.QueryUnescape (wireAll key) = Some key.
Proof.
  induction key as [|c key IH]; intros Hsafe; [repeat split|].
  apply safeKey_cons in Hsafe as ((Hp & Ha & Hplus & Hs) & Hkey).
  destruct (IH Hkey) as (IH1 & IH2 & IH3 & IH4).
  cbn [wireAll]. rewrite !occurs_app, IH1, IH2, IH3.
  rewrite wire_has_no_hash, (wire_has_no_ampersand c Ha), (wire_has_no_semicolon c Hs).
  repeat split.
  now rewrite (QueryUnescape_wire c _ Hp Hplus), IH4.
Qed.

Lemma fileParameter_stream (value key : string) :
  occurs "#" value = false ->
  occurs "&" value = false ->
  occurs ";" value = false ->
  Url.QueryUnescape value = Some key ->
  fileParameter ("/stream?file=" ++ value) = key.
Proof.
  intros Hh Ha Hs Hq. unfold fileParameter.
  assert (Hraw : Url.RawQuery ("/stream?file=" ++ value) = "file=" ++ value).
  { unfold Url.RawQuery, Strings.Cut.
    rewrite (Index_absent_byte "#" ("/stream?file=" ++ value))
      by (rewrite occurs_app, Hh; reflexivity).
    reflexivity. }
  rewrite Hraw. unfold Url.ParseQuery.
  rewrite (Split_absent_byte "&" ("file=" ++ value))
    by (rewrite occurs_app, Ha; reflexivity).
  cbn [fold_left]. unfold Url.parsePair, Strings.Contains.
  rewrite (Index_absent_byte ";" ("file=" ++ value))
    by (rewrite occurs_app, Hs; reflexivity).
  change (String.eqb ("file=" ++ value) "") with false.
  change (Strings.Cut ("file=" ++ value) "=") with ("file", value, true).
  cbv beta iota zeta.
  change (Url.QueryUnescape "file") with (Some "file").
  cbv beta iota. rewrite Hq, lookup_empty. cbn [default app].
  unfold Url.Get. now rewrite lookup_insert_eq.
Qed.

Lemma containsCTL_app (s t : string) :
  Url.stringContainsCTLByte (s ++ t)
  = Url.stringContainsCTLByte s || Url.stringContainsCTLByte t.
Proof.
  induction s as [|c s IH]; [reflexivity|].
  rewrite app_String. cbn [Url.stringContainsCTLByte]. now rewrite IH, orb_assoc.
Qed.

Lemma wire_clean (c : ascii) :
  Url.isCTL c = false ->
  Url.stringContainsCTLByte (wire c) = false /\ occurs " " (wire c) = false.
Proof.
  destruct c as [[] [] [] [] [] [] [] []]; intros H;
    try discriminate H; split; reflexivity.
Qed.

Lemma wireAll_clean (key : string) :
  Url.stringContainsCTLByte key = false ->
  Url.stringContainsCTLByte (wireAll key) = false /\ occurs " " (wireAll key) = false.
Proof.
  induction key as [|c key IH]; [now split|].
  cbn [Url.stringContainsCTLByte wireAll]. intros H.
  apply orb_false_elim in H as [Hc Hkey].
  destruct (wire_clean c Hc) as [H1 H2]. destruct (IH Hkey) as [H3 H4].
  now rewrite containsCTL_app, occurs_app, H1, H2, H3, H4.
Qed.

Lemma clean_byte_is_kept (c : ascii) :
  Url.isCTL c = false -> Ascii.eqb " " c = false ->
  Textproto.isASCIISpace c = false /\
  (Ascii.eqb c "010" || Ascii.eqb c "013") = false.
Proof.
  destruct c as [[] [] [] [] [] [] [] []]; intros H1 H2;
    try discriminate H1; try discriminate H2; split; reflexivity.
Qed.

(** A header value without control bytes and spaces is written as it
    was set. *)
Lemma written_clean (v : string) :
  Url.stringContainsCTLByte v = false -> occurs " " v = false ->
  Http.written v = v.
Proof.
  intros Hctl Hsp. unfold Http.written.
  assert (Hn : Http.headerNewlineToSpace v = v).
  { induction v as [|c v IH]; [reflexivity|].
    cbn [Url.stringContainsCTLByte occurs] in Hctl, Hsp.
    apply orb_false_elim in Hctl as [Hc Hctl]. apply orb_false_elim in Hsp as [Hs Hsp].
    destruct (clean_byte_is_kept c Hc Hs) as [_ Hnl].
    cbn [Http.headerNewlineToSpace]. now rewrite Hnl, (IH Hctl Hsp). }
  rewrite Hn. unfold Textproto.TrimString.
  assert (Hl : Textproto.trimLeft v = v).
  { destruct v as [|c v]; [reflexivity|].
    cbn [Url.stringContainsCTLByte occurs] in Hctl, Hsp.
    apply orb_false_elim in Hctl as [Hc _]. apply orb_false_elim in Hsp as [Hs _].
    destruct (clean_byte_is_kept c Hc Hs) as [Hspace _].
    cbn [Textproto.trimLeft]. now rewrite Hspace. }
  rewrite Hl. clear Hn Hl.
  induction v as [|c v IH]; [reflexivity|].
  cbn [Url.stringContainsCTLByte occurs] in Hctl, Hsp.
  apply orb_false_elim in Hctl as [Hc Hctl]. apply orb_false_elim in Hsp as [Hs Hsp].
  destruct (clean_byte_is_kept c Hc Hs) as [Hspace _].
  cbn [Textproto.trimRight]. rewrite (IH Hctl Hsp), Hspace. now destruct v.
Qed.

Lemma locationOf_clean (key : string) :
  Url.stringContainsCTLByte key = false ->
  Url.stringContainsCTLByte (locationOf key) = false /\
  Http.written (locationOf key) = locationOf key.
Proof.
  intros Hkey. destruct (wireAll_clean key Hkey) as [Hctl Hsp].
  assert (H1 : Url.stringContainsCTLByte (locationOf key) = false)
    by (rewrite locationOf_wireAll, containsCTL_app, Hctl; reflexivity).
  split; [exact H1|]. apply written_clean; [exact H1|].
  rewrite locationOf_wireAll, occurs_app, Hsp. reflexivity.
Qed.

Lemma safe_key_comes_back (key : string) :
  safeKey key = true -> fileParameter (locationOf key) = key.
Proof.
  intros Hsafe. destruct (wireAll_safe key Hsafe) as (Hh & Ha & Hs & Hq).
  rewrite locationOf_wireAll. now apply fileParameter_stream.
Qed.

Lemma redirectedFile_clean (key : string) :
  safeKey key = true -> Url.stringContainsCTLByte key = false ->
  redirectedFile (locationOf key) = Some key.
Proof.
  intros Hsafe Hkey. destruct (locationOf_clean key Hkey) as [Hctl Hw].
  unfold redirectedFile, Url.RequestQuery. rewrite Hw, Hctl. f_equal.
  apply (safe_key_comes_back key Hsafe).
Qed.

(** The redirect leads back to every key that has none of the bytes
    [%], [&], [+] and [;] and no control byte (below 0x20, or 0x7f): the
    [Location] header is written as the handler set it, the request for
    it is not refused, and its [file] parameter decodes to the key, so
    the redirected request asks for it. *)
Theorem redirect_round_trip_for_safe_keys (key : string) :
  safeKey key = true ->
  Url.stringContainsCTLByte key = false ->
  Http.written (locationOf key) = locationOf key /\
  Url.RequestQuery (locationOf key) = Some (Url.RawQuery (locationOf key)) /\
  redirectedFile (locationOf key) = Some key /\
  roundTrips key /\
  (forall method range,
     requestedFile (mkRequest method (Url.RawQuery (locationOf key)) range) = key).
Proof.
  intros Hsafe Hkey.
  destruct (locationOf_clean key Hkey) as [Hctl Hw].
  pose proof (safe_key_comes_back key Hsafe) as Hrt.
  split; [exact Hw|]. split.
  { unfold Url.RequestQuery. now rewrite Hctl. }
  split; [now apply redirectedFile_clean|].
  split; [exact Hrt|]. intros method range. exact Hrt.
Qed.

Lemma redirect_round_trip_for_safe_keys_witness :
  redirectedFile (locationOf "Café du soir? #1 (live) 1=2.mp3")
  = Some "Café du soir? #1 (live) 1=2.mp3".
Proof.
  destruct (redirect_round_trip_for_safe_keys "Café du soir? #1 (live) 1=2.mp3"
              eq_refl eq_refl) as (_ & _ & Hback & _).
  exact Hback.
Defined.

(** ** The other answers of the handler *)

(** A request served without one of the four required settings is
    answered 500 and nothing is asked of the store. *)
Theorem stream_missing_configuration (o : Outside) (req : Request) (w : World) :
  os_Getenv o "KEY_ID" = "" \/ os_Getenv o "APPLICATION_KEY" = "" \/
  os_Getenv o "BUCKET_NAME" = "" \/ os_Getenv o "ENDPOINT" = "" ->
  stream o req w
  = (w, http_Error "Missing required environment variables" StatusInternalServerError) /\
  Http.StatusCode (handle o req w).2 = 500.
Proof.
  intros H.
  assert (Hs : stream o req w
               = (w, http_Error "Missing required environment variables"
                       StatusInternalServerError)).
  { unfold stream.
    destruct H as [H | [H | [H | H]]]; rewrite H; cbn [String.eqb orb];
      rewrite ?orb_true_r; reflexivity. }
  split; [exact Hs|]. unfold handle. now rewrite Hs.
Qed.

Lemma stream_missing_configuration_witness :
  Http.StatusCode
    (handle (mkOutside (fun name => if String.eqb name "ENDPOINT" then "" else "set")
               None (fun _ => Ok []) (fun _ _ => Err NoSuchKey)
               (fun _ => None) (fun _ => None) (fun _ => None) (fun _ => 0))
       (get "file=song.mp3" "") emptyWorld).2 = 500.
Proof.
  apply (stream_missing_configuration
           (mkOutside (fun name => if String.eqb name "ENDPOINT" then "" else "set")
              None (fun _ => Ok []) (fun _ _ => Err NoSuchKey)
              (fun _ => None) (fun _ => None) (fun _ => None) (fun _ => 0))
           (get "file=song.mp3" "") emptyWorld).
  right. right. right. reflexivity.
Defined.

(** A request without a [file] parameter is answered 500 when the
    listing of the store fails; the listing is the only request sent. *)
Theorem stream_listing_fails (o : Outside) (req : Request) (w : World) (e : error) :
  configured o ->
  requestedFile req = "" ->
  s3_ListObjectsV2 o (os_Getenv o "BUCKET_NAME") = Err e ->
  stream o req w
  = (logCall (ListObjectsV2 (os_Getenv o "BUCKET_NAME")) w,
     http_Error "Failed to list files" StatusInternalServerError) /\
  Http.StatusCode (handle o req w).2 = 500.
Proof.
  intros Hc Hf Hl.
  assert (Hs : stream o req w
               = (logCall (ListObjectsV2 (os_Getenv o "BUCKET_NAME")) w,
                  http_Error "Failed to list files" StatusInternalServerError)).
  { rewrite (stream_configured _ _ _ Hc), Hf. cbn [String.eqb].
    unfold listFiles, clientOf. cbn [bucketName]. now rewrite Hl. }
  split; [exact Hs|]. unfold handle. now rewrite Hs.
Qed.

Lemma stream_listing_fails_witness :
  Http.StatusCode
    (handle (mkOutside allSet None (fun _ => Err (External "connection refused"))
               (fun _ _ => Err NoSuchKey)
               (fun _ => None) (fun _ => None) (fun _ => None) (fun _ => 0))
       (get "" "") emptyWorld).2 = 500.
Proof.
  apply (stream_listing_fails
           (mkOutside allSet None (fun _ => Err (External "connection refused"))
              (fun _ _ => Err NoSuchKey)
              (fun _ => None) (fun _ => None) (fun _ => None) (fun _ => 0))
           (get "" "") emptyWorld (External "connection refused")).
  - repeat split; discriminate.
  - reflexivity.
  - reflexivity.
Defined.

(** A request without a [file] parameter on a store that lists at least
    one key is answered 302, redirected to [/stream?file=] followed by the
    encoding of a key of the listing; no object is fetched. *)
Theorem stream_redirects_to_listed_key (o : Outside) (req : Request) (w : World)
  (listResult : list string) :
  configured o ->
  requestedFile req = "" ->
  s3_ListObjectsV2 o (os_Getenv o "BUCKET_NAME") = Ok listResult ->
  listResult <> [] ->
  inRange (rand_Intn o) ->
  exists key,
    In key listResult /\
    (stream o req w).2 = http_Redirect (redirectURL key) StatusFound /\
    Http.StatusCode (handle o req w).2 = 302 /\
    Http.Header (handle o req w).2 !! "Location" = Some (locationOf key) /\
    getCalls (handle o req w).1 = getCalls w.
Proof.
  intros Hc Hf Hl Hne Hr.
  pose proof (stream_no_key _ _ w _ Hc Hf Hl) as Hs.
  rewrite (selectRandomFile_draw _ _ Hne) in Hs.
  exists (nth (rand_Intn o (length listResult)) listResult "").
  assert (Hlen : 0 < length listResult) by (destruct listResult; [contradiction | cbn; lia]).
  split; [apply nth_In, Hr, Hlen|].
  unfold handle. rewrite Hs. cbn [fst snd respond].
  split; [reflexivity|]. split; [reflexivity|]. split.
  - unfold Http.Redirect, locationOf. cbn [Http.Header].
    destruct (String.eqb (Method req) "GET" || String.eqb (Method req) "HEAD").
    + rewrite lookup_insert_ne by discriminate. apply lookup_singleton_eq.
    + apply lookup_singleton_eq.
  - unfold getCalls, logCall. cbn [remoteCalls].
    rewrite List.filter_app. cbn [List.filter isGetObject]. now rewrite List.app_nil_r.
Qed.

Lemma stream_redirects_to_listed_key_witness :
  exists key,
    In key ["a.mp3"; "b c.mp3"] /\
    (stream (steady [("a.mp3", "abc"); ("b c.mp3", "def")] 5) (get "" "") emptyWorld).2
    = http_Redirect (redirectURL key) StatusFound.
Proof.
  destruct (stream_redirects_to_listed_key
              (steady [("a.mp3", "abc"); ("b c.mp3", "def")] 5) (get "" "") emptyWorld
              ["a.mp3"; "b c.mp3"] (steady_configured _ _) eq_refl eq_refl)
    as (key & Hin & Hs & _); [discriminate | apply mod_inRange |].
  exists key. split; [exact Hin | exact Hs].
Defined.

(** ** The directory of a cached file *)

Lemma HasPrefix_split (s p : string) :
  Strings.HasPrefix s p = true -> s = p ++ Strings.drop (String.length p) s.
Proof.
  revert s. induction p as [|a p IH]; intros s H; [reflexivity|].
  destruct s as [|b s]; [discriminate H|].
  cbn [Strings.HasPrefix] in H.
  destruct (Ascii.eqb a b) eqn:E; [|discriminate H].
  apply Ascii.eqb_eq in E. subst b.
  rewrite app_String. cbn [String.length Strings.drop]. f_equal. now apply IH.
Qed.

Lemma Index_split (s sep : string) (i : nat) :
  Strings.Index s sep = Some i ->
  s = Strings.take i s ++ sep ++ Strings.drop (i + String.length sep) s.
Proof.
  revert i. induction s as [|c s IH]; intros i; cbn [Strings.Index].
  - destruct (Strings.HasPrefix "" sep) eqn:E; [|discriminate].
    intros [= <-]. now apply HasPrefix_split.
  - destruct (Strings.HasPrefix (String c s) sep) eqn:E.
    + intros [= <-]. now apply HasPrefix_split.
    + destruct (Strings.Index s sep) as [j|]; [|discriminate].
      intros [= <-]. cbn [Strings.take Nat.add Strings.drop].
      rewrite app_String. f_equal. now apply IH.
Qed.

Lemma Split_rounds_not_nil (n : nat) (s sep : string) :
  Strings.Split_rounds n s sep <> [].
Proof.
  destruct n; cbn [Strings.Split_rounds]; [discriminate|].
  destruct (Strings.Index s sep); discriminate.
Qed.

Lemma Join_cons (e : string) (rest : list string) (sep : string) :
  rest <> [] -> Strings.Join (e :: rest) sep = e ++ sep ++ Strings.Join rest sep.
Proof. destruct rest; [contradiction | reflexivity]. Qed.

(** Joining the pieces of a split with the separator gives the string
    back. *)
Lemma Join_Split_rounds (n : nat) (s sep : string) :
  Strings.Join (Strings.Split_rounds n s sep) sep = s.
Proof.
  revert s. induction n as [|n IH]; intros s; [reflexivity|].
  cbn [Strings.Split_rounds].
  destruct (Strings.Index s sep) as [i|] eqn:E; [|reflexivity].
  rewrite Join_cons by apply Split_rounds_not_nil.
  rewrite IH. symmetry. now apply Index_split.
Qed.

Lemma Join_init_last (l : list string) (sep : string) :
  (2 <= length l)%nat ->
  Strings.Join l sep = Strings.Join (Strings.init l) sep ++ sep ++ List.last l "".
Proof.
  unfold Strings.init.
  induction l as [|a l IH]; intros Hlen; [cbn in Hlen; lia|].
  destruct l as [|b l]; [cbn in Hlen; lia|].
  destruct l as [|c l]; [reflexivity|].
  rewrite Join_cons by discriminate.
  rewrite IH by (cbn [length]; lia).
  change (removelast (a :: b :: c :: l)) with (a :: removelast (b :: c :: l)).
  change (List.last (a :: b :: c :: l) "") with (List.last (b :: c :: l) "").
  rewrite Join_cons.
  - now rewrite !app_assoc_string.
  - cbn [removelast]. discriminate.
Qed.

Lemma Index_empty (sep : string) :
  sep <> "" -> Strings.Index "" sep = None.
Proof. destruct sep; [contradiction | reflexivity]. Qed.

(** With enough rounds, the last piece of a split holds no separator. *)
Lemma last_Split_rounds (n : nat) (s sep : string) :
  sep <> "" -> (String.length s <= n)%nat ->
  Strings.Index (List.last (Strings.Split_rounds n s sep) "") sep = None.
Proof.
  intros Hsep. revert s. induction n as [|n IH]; intros s Hlen.
  - destruct s; [|cbn in Hlen; lia]. now apply Index_empty.
  - cbn [Strings.Split_rounds].
    destruct (Strings.Index s sep) as [i|] eqn:E; [|exact E].
    pose proof (Split_rounds_not_nil n (Strings.drop (i + String.length sep) s) sep) as Hne.
    destruct (Strings.Split_rounds n (Strings.drop (i + String.length sep) s) sep)
      as [|p ps] eqn:Hs; [contradiction|].
    change (List.last (Strings.take i s :: p :: ps) "") with (List.last (p :: ps) "").
    rewrite <- Hs. apply IH.
    rewrite length_drop.
    assert (0 < String.length sep)%nat by (destruct sep; [contradiction | cbn; lia]).
    assert (0 < String.length s)%nat.
    { destruct s; [|cbn; lia]. rewrite (Index_empty sep Hsep) in E. discriminate. }
    lia.
Qed.

Lemma Split_two_pieces (s sep : string) (i : nat) :
  Strings.Index s sep = Some i -> sep <> "" ->
  (2 <= length (Strings.Split s sep))%nat.
Proof.
  intros E Hsep. unfold Strings.Split.
  destruct (String.length s) eqn:Hlen.
  - destruct s; [|discriminate Hlen]. rewrite (Index_empty sep Hsep) in E. discriminate.
  - cbn [Strings.Split_rounds]. rewrite E. cbn [length].
    pose proof (Split_rounds_not_nil n (Strings.drop (i + String.length sep) s) sep).
    destruct (Strings.Split_rounds n _ sep); [contradiction | cbn [length]; lia].
Qed.

Lemma filePath_in_cacheDir (fileName : string) :
  "cache/" ++ fileName = cacheDir fileName ++ "/" ++ baseName fileName /\
  Strings.Contains (baseName fileName) "/" = false.
Proof.
  unfold cacheDir, baseName, Strings.Contains.
  assert (Hlast : Strings.Index (List.last (Strings.Split fileName "/") "") "/" = None)
    by (apply last_Split_rounds; [discriminate | lia]).
  rewrite Hlast. split; [|reflexivity].
  destruct (Strings.Index fileName "/") as [i|] eqn:E.
  - rewrite app_assoc_string. f_equal.
    rewrite <- Join_init_last by (eapply Split_two_pieces; [exact E | discriminate]).
    symmetry. apply Join_Split_rounds.
  - unfold Strings.Split.
    destruct (String.length fileName); cbn [Strings.Split_rounds]; rewrite ?E; reflexivity.
Qed.

Lemma downloadFile_uses_cacheDir (o : Outside) (b : B2Client) (key : string)
  (w w1 : World) (p : string) :
  downloadFile o b key w = (w1, Ok p) ->
  os_MkdirAll o (cacheDir key) = None /\ dirs w1 = {[cacheDir key]} ∪ dirs w.
Proof.
  unfold downloadFile, io_Copy. fold (cacheDir key).
  destruct (s3_GetObject o (bucketName b) key) as [body|?]; [|discriminate].
  destruct (os_MkdirAll o (cacheDir key)) eqn:Hmk; [discriminate|].
  destruct (os_Create o _); [discriminate|].
  destruct (copied o _ body) as [? [?|]]; [discriminate|].
  intros [= <- _]. split; reflexivity.
Qed.

(** Every file a resolve writes lies directly in the directory the same
    resolve has asked [os.MkdirAll] for: the path [cache/<key>] is that
    directory, a slash and the last segment of the key, which holds no
    slash; the directory is [cache] for a key without a slash and starts
    with [cache/] otherwise. *)
Theorem resolve_writes_into_its_directory (o : Outside) (b : B2Client) (key : string)
  (w w1 : World) (p : string) :
  downloadFile o b key w = (w1, Ok p) ->
  cacheDir key ∈ dirs w1 /\
  os_MkdirAll o (cacheDir key) = None /\
  p = cacheDir key ++ "/" ++ baseName key /\
  Strings.Contains (baseName key) "/" = false /\
  (if Strings.Contains key "/"
   then Strings.HasPrefix (cacheDir key) "cache/" = true
   else cacheDir key = "cache" /\ baseName key = key).
Proof.
  intros H.
  destruct (downloadFile_uses_cacheDir _ _ _ _ _ _ H) as [Hmk Hdirs].
  destruct (downloadFile_ok_inv _ _ _ _ _ _ H) as [-> _].
  destruct (filePath_in_cacheDir key) as [Hpath Hbase].
  split; [rewrite Hdirs; apply elem_of_union; left; now apply elem_of_singleton|].
  split; [exact Hmk|]. split; [exact Hpath|]. split; [exact Hbase|].
  unfold cacheDir, baseName, Strings.Contains, Strings.Split.
  destruct (Strings.Index key "/") eqn:E; [reflexivity|].
  split; [reflexivity|].
  destruct (String.length key); cbn [Strings.Split_rounds]; rewrite ?E; reflexivity.
Qed.

Lemma resolve_writes_into_its_directory_witness :
  cacheDir "rock/1975/song.mp3" = "cache/rock/1975" /\
  baseName "rock/1975/song.mp3" = "song.mp3" /\
  cacheDir "rock/1975/song.mp3" ∈
    dirs (downloadFile (steady [("rock/1975/song.mp3", "abc")] 0) (mkB2Client "radio")
            "rock/1975/song.mp3" emptyWorld).1.
Proof.
  split; [reflexivity|]. split; [reflexivity|].
  destruct (resolve_writes_into_its_directory
              (steady [("rock/1975/song.mp3", "abc")] 0) (mkB2Client "radio")
              "rock/1975/song.mp3" emptyWorld
              (downloadFile (steady [("rock/1975/song.mp3", "abc")] 0) (mkB2Client "radio")
                 "rock/1975/song.mp3" emptyWorld).1
              "cache/rock/1975/song.mp3" eq_refl) as [Hdir _].
  exact Hdir.
Defined.

(** ** The errors of a resolve *)

(** A resolve asks the store first, then makes the directory, then
    creates the file, then copies, and stops at the first failure: what
    a later step would answer does not matter.  Every error of a resolve
    is one of these four wrapped causes, met after the earlier steps have
    succeeded; the store has then been asked once, and no file has been
    written unless the copy is what failed, in which case the file of the
    key holds the bytes that reached it. *)
Theorem resolve_error_causes (o : Outside) (b : B2Client) (key : string) (w : World) :
  (forall c, s3_GetObject o (bucketName b) key = Err c ->
     downloadFile o b key w
     = (logCall (GetObject (bucketName b) key) w,
        Err (fmt_Errorf "failed to get object" c))) /\
  (forall body c,
     s3_GetObject o (bucketName b) key = Ok body ->
     os_MkdirAll o (cacheDir key) = Some c ->
     downloadFile o b key w
     = (logCall (GetObject (bucketName b) key) w,
        Err (fmt_Errorf "failed to create cache directory" c))) /\
  (forall body c,
     s3_GetObject o (bucketName b) key = Ok body ->
     os_MkdirAll o (cacheDir key) = None ->
     os_Create o ("cache/" ++ key) = Some c ->
     downloadFile o b key w
     = (putDir (cacheDir key) (logCall (GetObject (bucketName b) key) w),
        Err (fmt_Errorf "failed to create file" c))) /\
  (forall body partial c,
     s3_GetObject o (bucketName b) key = Ok body ->
     os_MkdirAll o (cacheDir key) = None ->
     os_Create o ("cache/" ++ key) = None ->
     copied o ("cache/" ++ key) body = (partial, Some c) ->
     exists w1,
       downloadFile o b key w = (w1, Err (fmt_Errorf "failed to copy file content" c)) /\
       files w1 !! ("cache/" ++ key) = Some partial) /\
  (forall w1 e, downloadFile o b key w = (w1, Err e) ->
     getCalls w1 = getCalls w + 1 /\
     ((exists c, s3_GetObject o (bucketName b) key = Err c /\
                 e = fmt_Errorf "failed to get object" c /\ files w1 = files w) \/
      (exists body c,
                 s3_GetObject o (bucketName b) key = Ok body /\
                 os_MkdirAll o (cacheDir key) = Some c /\
                 e = fmt_Errorf "failed to create cache directory" c /\
                 files w1 = files w) \/
      (exists body c,
                 s3_GetObject o (bucketName b) key = Ok body /\
                 os_MkdirAll o (cacheDir key) = None /\
                 os_Create o ("cache/" ++ key) = Some c /\
                 e = fmt_Errorf "failed to create file" c /\
                 files w1 = files w) \/
      (exists body partial c,
                 s3_GetObject o (bucketName b) key = Ok body /\
                 os_MkdirAll o (cacheDir key) = None /\
                 os_Create o ("cache/" ++ key) = None /\
                 copied o ("cache/" ++ key) body = (partial, Some c) /\
                 e = fmt_Errorf "failed to copy file content" c /\
                 files w1 !! ("cache/" ++ key) = Some partial))).
Proof.
  split; [intros c Hget; now apply downloadFile_get_fails|].
  split.
  { intros body c Hget Hmk. unfold downloadFile. fold (cacheDir key).
    now rewrite Hget, Hmk. }
  split.
  { intros body c Hget Hmk Hcr. unfold downloadFile. fold (cacheDir key).
    now rewrite Hget, Hmk, Hcr. }
  split.
  { intros body partial c Hget Hmk Hcr Hcp. unfold downloadFile, io_Copy.
    fold (cacheDir key). rewrite Hget, Hmk, Hcr, Hcp.
    eexists. split; [reflexivity | apply files_putFile]. }
  intros w1 e H.
  split.
  { pose proof (downloadFile_getCalls o b key w) as Hc. now rewrite H in Hc. }
  revert H. unfold downloadFile, io_Copy. fold (cacheDir key).
  destruct (s3_GetObject o (bucketName b) key) as [body|c].
  2:{ intros [= <- <-]. left. exists c. repeat split. }
  destruct (os_MkdirAll o (cacheDir key)) as [c|].
  { intros [= <- <-]. right; left. exists body, c. repeat split. }
  destruct (os_Create o _) as [c|].
  { intros [= <- <-]. right; right; left. exists body, c. repeat split. }
  destruct (copied o _ body) as [partial [c|]] eqn:Hcp; [|discriminate].
  intros [= <- <-]. right; right; right. exists body, partial, c.
  do 3 (split; [reflexivity|]). split; [exact Hcp|].
  split; [reflexivity | apply files_putFile].
Qed.

Lemma resolve_error_causes_witness :
  downloadFile
    (mkOutside allSet None (fun _ => Ok ["a/b.mp3"])
       (fun _ _ => Err NoSuchKey)
       (fun _ => Some (External "permission denied"))
       (fun _ => Some (External "is a directory")) (fun _ => None) (fun _ => 0))
    (mkB2Client "radio") "a/b.mp3" emptyWorld
  = (logCall (GetObject "radio" "a/b.mp3") emptyWorld,
     Err (fmt_Errorf "failed to get object" NoSuchKey)).
Proof.
  destruct (resolve_error_causes
              (mkOutside allSet None (fun _ => Ok ["a/b.mp3"])
                 (fun _ _ => Err NoSuchKey)
                 (fun _ => Some (External "permission denied"))
                 (fun _ => Some (External "is a directory")) (fun _ => None)
                 (fun _ => 0))
              (mkB2Client "radio") "a/b.mp3" emptyWorld) as [Hget _].
  apply (Hget NoSuchKey). reflexivity.
Defined.

(** ** The requests one answer costs *)

Lemma handle_world (o : Outside) (req : Request) (w : World) :
  (handle o req w).1 = (stream o req w).1.
Proof. unfold handle. now destruct (stream o req w). Qed.

(** A request whose client cannot be built (the settings are present but
    the configuration does not load) is answered 500 and asks nothing of
    the store. *)
Theorem stream_client_creation_fails (o : Outside) (req : Request) (w : World)
  (e : error) :
  os_Getenv o "KEY_ID" <> "" -> os_Getenv o "APPLICATION_KEY" <> "" ->
  os_Getenv o "BUCKET_NAME" <> "" -> os_Getenv o "ENDPOINT" <> "" ->
  config_LoadDefaultConfig o = Some e ->
  stream o req w = (w, http_Error "Failed to create B2 client" StatusInternalServerError) /\
  Http.StatusCode (handle o req w).2 = 500.
Proof.
  intros Hk Ha Hb He Hc.
  assert (Hs : stream o req w
               = (w, http_Error "Failed to create B2 client" StatusInternalServerError)).
  { unfold stream, NewB2Client.
    apply String.eqb_neq in Hk, Ha, Hb, He.
    now rewrite Hk, Ha, Hb, He, Hc. }
  split; [exact Hs|]. unfold handle. now rewrite Hs.
Qed.

Lemma stream_client_creation_fails_witness :
  handle (mkOutside allSet (Some (External "no credentials")) (fun _ => Ok ["a.mp3"])
            (fun _ _ => Ok (mkBody "abc" None))
            (fun _ => None) (fun _ => None) (fun _ => None) (fun _ => 0))
    (get "file=a.mp3" "") emptyWorld
  = (emptyWorld, Http.Error ∅ "Failed to create B2 client" 500).
Proof.
  destruct (stream_client_creation_fails
              (mkOutside allSet (Some (External "no credentials")) (fun _ => Ok ["a.mp3"])
                 (fun _ _ => Ok (mkBody "abc" None))
                 (fun _ => None) (fun _ => None) (fun _ => None) (fun _ => 0))
              (get "file=a.mp3" "") emptyWorld (External "no credentials"))
    as [Hs _]; try discriminate; [reflexivity|].
  unfold handle. rewrite Hs. reflexivity.
Defined.

Lemma refused_or_configured (o : Outside) : refused o \/ configured o.
Proof.
  unfold refused, configured.
  destruct (String.string_dec (os_Getenv o "KEY_ID") ""); [tauto|].
  destruct (String.string_dec (os_Getenv o "APPLICATION_KEY") ""); [tauto|].
  destruct (String.string_dec (os_Getenv o "BUCKET_NAME") ""); [tauto|].
  destruct (String.string_dec (os_Getenv o "ENDPOINT") ""); [tauto|].
  destruct (config_LoadDefaultConfig o) as [e|].
  - left. do 4 right. discriminate.
  - right. repeat split; assumption.
Qed.

(** What one request asks of the store, case by case: nothing, and the
    world stays as it is, when the request is refused for its
    configuration; exactly the listing when the request is configured
    and names no file, the files and directories of the cache being as
    before; exactly the [GetObject] for the named file when it names
    one.  Every request is in one of these cases, so one request sends at
    most one request to the store, appended to the log. *)
Theorem handle_asks_the_store_at_most_once (o : Outside) (req : Request) (w : World) :
  (refused o \/ configured o) /\
  (refused o -> (handle o req w).1 = w) /\
  (configured o -> requestedFile req = "" ->
     remoteCalls (handle o req w).1
     = (remoteCalls w ++ [ListObjectsV2 (os_Getenv o "BUCKET_NAME")])%list /\
     files (handle o req w).1 = files w /\ dirs (handle o req w).1 = dirs w) /\
  (configured o -> requestedFile req <> "" ->
     remoteCalls (handle o req w).1
     = (remoteCalls w ++ [GetObject (os_Getenv o "BUCKET_NAME") (requestedFile req)])%list).
Proof.
  split; [apply refused_or_configured|].
  split; [|split].
  - intros Href. rewrite handle_world. unfold stream, NewB2Client.
    destruct (_ || _ || _ || _) eqn:Henv; [reflexivity|].
    destruct (config_LoadDefaultConfig o) eqn:Hcfg; [reflexivity|].
    exfalso.
    apply orb_false_elim in Henv as [Henv He].
    apply orb_false_elim in Henv as [Henv Hb].
    apply orb_false_elim in Henv as [Hk Ha].
    apply String.eqb_neq in Hk, Ha, Hb, He.
    destruct Href as [H | [H | [H | [H | H]]]]; congruence.
  - intros Hc Hf. rewrite handle_world, (stream_configured _ _ _ Hc), Hf.
    cbn [String.eqb]. unfold listFiles, clientOf. cbn [bucketName].
    destruct (s3_ListObjectsV2 o _) as [l|?];
      [destruct (selectRandomFile (rand_Intn o) l)|]; repeat split.
  - intros Hc Hf. rewrite handle_world, (stream_key _ _ _ Hc Hf).
    pose proof (downloadFile_calls o (clientOf o) (requestedFile req) w) as Hcalls.
    now destruct (downloadFile o (clientOf o) (requestedFile req) w) as [w1 [p|?]].
Qed.

Lemma handle_asks_the_store_at_most_once_witness :
  (handle (mkOutside allSet (Some (External "no credentials")) (fun _ => Ok ["a.mp3"])
             (fun _ _ => Ok (mkBody "abc" None))
             (fun _ => None) (fun _ => None) (fun _ => None) (fun _ => 0))
     (get "file=a.mp3" "") emptyWorld).1 = emptyWorld /\
  remoteCalls (handle (steady [("a.mp3", "abc")] 0) (get "" "") emptyWorld).1
  = [ListObjectsV2 "set"] /\
  remoteCalls (handle (steady [("a.mp3", "abc")] 0) (get "file=a.mp3" "") emptyWorld).1
  = [GetObject "set" "a.mp3"].
Proof.
  split; [|split].
  - destruct (handle_asks_the_store_at_most_once
                (mkOutside allSet (Some (External "no credentials"))
                   (fun _ => Ok ["a.mp3"]) (fun _ _ => Ok (mkBody "abc" None))
                   (fun _ => None) (fun _ => None) (fun _ => None) (fun _ => 0))
                (get "file=a.mp3" "") emptyWorld) as (_ & Href & _).
    apply Href. do 4 right. discriminate.
  - destruct (handle_asks_the_store_at_most_once
                (steady [("a.mp3", "abc")] 0) (get "" "") emptyWorld)
      as (_ & _ & Hlist & _).
    destruct (Hlist (steady_configured _ _) eq_refl) as [Hcalls _]. exact Hcalls.
  - destruct (handle_asks_the_store_at_most_once
                (steady [("a.mp3", "abc")] 0) (get "file=a.mp3" "") emptyWorld)
      as (_ & _ & _ & Hget).
    apply (Hget (steady_configured _ _)). discriminate.
Defined.

(** ** Serving what was just fetched *)

Lemma serveContent_no_range (req : Request) (content : string) :
  Header_Range req = "" ->
  Http.serveContent req content
  = Http.mkResponse StatusOK
      (<["Content-Length" := Strconv.FormatInt (Z.of_nat (String.length content))]>
         {["Accept-Ranges" := "bytes"]})
      (Http.Bytes (if String.eqb (Method req) "HEAD" then "" else content)).
Proof.
  intros Hr. unfold Http.serveContent. rewrite Hr.
  cbn [Http.parseRange String.eqb Http.sumRangesSize fold_left].
  destruct (Z.of_nat (String.length content) <? 0)%Z; reflexivity.
Qed.

(** A request without conditional headers that names a file is answered
    from the bytes the store has just delivered, whatever the cache held
    for that key before:
    without a [Range] header the answer is 200 with the length of the
    delivered bytes as [Content-Length]; its body is the delivered bytes,
    or nothing for a [HEAD] request, which costs the same [GetObject]
    request and leaves the same file in the cache. *)
Theorem handle_serves_fresh_bytes (o : Outside) (req : Request) (w : World)
  (body : ObjectBody) :
  configured o ->
  requestedFile req <> "" ->
  s3_GetObject o (os_Getenv o "BUCKET_NAME") (requestedFile req) = Ok body ->
  readError body = None ->
  localOpsSucceed o ->
  Header_Range req = "" ->
  Http.StatusCode (handle o req w).2 = 200 /\
  Http.Header (handle o req w).2 !! "Content-Length"
  = Some (Strconv.FormatInt (Z.of_nat (String.length (delivered body)))) /\
  Http.Body (handle o req w).2
  = Http.Bytes (if String.eqb (Method req) "HEAD" then "" else delivered body) /\
  files (handle o req w).1 !! ("cache/" ++ requestedFile req) = Some (delivered body) /\
  getCalls (handle o req w).1 = getCalls w + 1.
Proof.
  intros Hc Hf Hget Hr Hlocal Hrange.
  rewrite (handle_serves_download o req w body Hc Hf Hget Hr Hlocal).
  rewrite (serveContent_no_range req _ Hrange).
  split; [reflexivity|]. split; [apply lookup_insert_eq|]. split; [reflexivity|].
  rewrite handle_world, (stream_key _ _ _ Hc Hf).
  destruct (downloadFile_succeeds o (clientOf o) (requestedFile req) w body Hget Hr Hlocal)
    as (w1 & Hd & Hfile).
  pose proof (downloadFile_getCalls o (clientOf o) (requestedFile req) w) as Hcalls.
  rewrite Hd in Hcalls |- *. cbn [fst] in Hcalls |- *. split; assumption.
Qed.

Lemma handle_serves_fresh_bytes_witness :
  Http.Body
    (handle (steady [("a.mp3", "new")] 0) (get "file=a.mp3" "")
       (putFile "cache/a.mp3" "old" emptyWorld)).2 = Http.Bytes "new" /\
  Http.Body
    (handle (steady [("a.mp3", "new")] 0) (mkRequest "HEAD" "file=a.mp3" "")
       emptyWorld).2 = Http.Bytes "" /\
  getCalls
    (handle (steady [("a.mp3", "new")] 0) (mkRequest "HEAD" "file=a.mp3" "")
       emptyWorld).1 = 1.
Proof.
  destruct (handle_serves_fresh_bytes (steady [("a.mp3", "new")] 0) (get "file=a.mp3" "")
              (putFile "cache/a.mp3" "old" emptyWorld) (mkBody "new" None)
              (steady_configured _ _)) as (_ & _ & Hbody & _);
    [discriminate | reflexivity | reflexivity | apply steady_localOps | reflexivity |].
  destruct (handle_serves_fresh_bytes (steady [("a.mp3", "new")] 0)
              (mkRequest "HEAD" "file=a.mp3" "") emptyWorld (mkBody "new" None)
              (steady_configured _ _)) as (_ & _ & Hhead & _ & Hcalls);
    [discriminate | reflexivity | reflexivity | apply steady_localOps | reflexivity |].
  split; [exact Hbody|]. split; [exact Hhead | exact Hcalls].
Defined.

(** ** What the redirect encoding produces *)

Lemma substByte_plain (a : ascii) : plain (substByte a) = true.
Proof. destruct a as [[] [] [] [] [] [] [] []]; reflexivity. Qed.

Lemma plain_app (s t : string) : plain (s ++ t) = plain s && plain t.
Proof.
  unfold plain. rewrite !occurs_app.
  destruct (occurs " " s), (occurs "#" s), (occurs "?" s),
    (occurs " " t), (occurs "#" t), (occurs "?" t); reflexivity.
Qed.

Lemma substAll_plain (key : string) : plain (substAll key) = true.
Proof.
  induction key as [|c key IH]; [reflexivity|].
  cbn [substAll]. now rewrite plain_app, substByte_plain, IH.
Qed.

Lemma plain_cons (c : ascii) (s : string) :
  plain (String c s) = true -> substByte c = String c "" /\ plain s = true.
Proof.
  change (String c s) with (String c "" ++ s). rewrite plain_app.
  intros H. apply andb_prop in H as [Hc Hs]. split; [|exact Hs].
  revert Hc. destruct c as [[] [] [] [] [] [] [] []]; intros Hc;
    try reflexivity; discriminate Hc.
Qed.

Lemma substAll_of_plain (s : string) : plain s = true -> substAll s = s.
Proof.
  induction s as [|c s IH]; intros H; [reflexivity|].
  apply plain_cons in H as [Hc Hs].
  cbn [substAll]. now rewrite Hc, (IH Hs).
Qed.

Lemma plain_no_hash (s : string) : plain s = true -> occurs "#" s = false.
Proof.
  unfold plain. destruct (occurs " " s), (occurs "#" s); cbn; congruence.
Qed.

(** The encoded key never holds a space, a [#] or a [?], so the query of
    the redirect URL is [file=] followed by the whole encoded key,
    whatever the key; the encoding changes a key exactly when the key
    holds one of the three bytes, and encoding twice is encoding once
    (a key and its encoding, when they differ, are redirected to the
    same URL). *)
Theorem encodeFile_output (key : string) :
  plain (encodeFile key) = true /\
  Url.RawQuery (redirectURL key) = "file=" ++ encodeFile key /\
  (encodeFile key = key <-> plain key = true) /\
  encodeFile (encodeFile key) = encodeFile key /\
  redirectURL (encodeFile key) = redirectURL key.
Proof.
  assert (Hplain : plain (encodeFile key) = true)
    by (rewrite encodeFile_substAll; apply substAll_plain).
  assert (Hidem : encodeFile (encodeFile key) = encodeFile key).
  { rewrite (encodeFile_substAll (encodeFile key)). now apply substAll_of_plain. }
  split; [exact Hplain|]. split; [|split; [|split]].
  - unfold redirectURL, Url.RawQuery, Strings.Cut.
    rewrite (Index_absent_byte "#" ("/stream?file=" ++ encodeFile key))
      by (rewrite occurs_app, (plain_no_hash _ Hplain); reflexivity).
    reflexivity.
  - split.
    + intros H. now rewrite <- H.
    + intros H. rewrite encodeFile_substAll. now apply substAll_of_plain.
  - exact Hidem.
  - unfold redirectURL. now rewrite Hidem.
Qed.

(** ** From the redirect to the download *)

Lemma Redirect_Location (req : Request) (url : string) (code : nat) :
  Http.Header (Http.Redirect req url code) !! "Location"
  = Some (Http.hexEscapeNonASCII url).
Proof.
  unfold Http.Redirect. cbn [Http.Header].
  destruct (String.eqb (Method req) "GET" || String.eqb (Method req) "HEAD").
  - rewrite lookup_insert_ne by discriminate. apply lookup_singleton_eq.
  - apply lookup_singleton_eq.
Qed.

(** The two requests of a client that names no file, on a store whose
    keys are not empty and hold none of the bytes [%], [&], [+] and [;]
    and no control byte: the first is redirected to a key of the listing;
    the [Location] header as written is accepted as the target of a new
    request, and this request, whatever its method and [Range], asks the
    store for exactly that key; the two requests cost one listing and one
    [GetObject]. *)
Theorem follow_redirect_fetches_selected_key (o1 o2 : Outside) (req : Request)
  (w : World) (listResult : list string) :
  configured o1 ->
  configured o2 ->
  requestedFile req = "" ->
  s3_ListObjectsV2 o1 (os_Getenv o1 "BUCKET_NAME") = Ok listResult ->
  listResult <> [] ->
  inRange (rand_Intn o1) ->
  (forall k, In k listResult ->
     safeKey k = true /\ Url.stringContainsCTLByte k = false /\ k <> "") ->
  exists key location query,
    In key listResult /\
    Http.Header (handle o1 req w).2 !! "Location" = Some location /\
    Url.RequestQuery (Http.written location) = Some query /\
    redirectedFile location = Some key /\
    forall method range,
      requestedFile (mkRequest method query range) = key /\
      remoteCalls
        (handle o2 (mkRequest method query range) (handle o1 req w).1).1
      = (remoteCalls w ++ [ListObjectsV2 (os_Getenv o1 "BUCKET_NAME");
                           GetObject (os_Getenv o2 "BUCKET_NAME") key])%list.
Proof.
  intros Hc1 Hc2 Hf Hl Hne Hr Hkeys.
  pose proof (stream_no_key _ _ w _ Hc1 Hf Hl) as Hs.
  rewrite (selectRandomFile_draw _ _ Hne) in Hs.
  set (key := nth (rand_Intn o1 (length listResult)) listResult "") in *.
  assert (Hin : In key listResult).
  { apply nth_In, Hr. destruct listResult; [contradiction | cbn; lia]. }
  destruct (Hkeys key Hin) as (Hsafe & Hctl & Hkey).
  destruct (locationOf_clean key Hctl) as [Hloc Hw].
  exists key, (locationOf key), (Url.RawQuery (locationOf key)).
  split; [exact Hin|].
  assert (H1 : handle o1 req w
               = (logCall (ListObjectsV2 (os_Getenv o1 "BUCKET_NAME")) w,
                  Http.Redirect req (redirectURL key) StatusFound))
    by (unfold handle; rewrite Hs; reflexivity).
  rewrite H1. cbn [fst snd].
  split; [apply Redirect_Location|].
  split; [unfold Url.RequestQuery; now rewrite Hw, Hloc|].
  split; [now apply redirectedFile_clean|].
  intros method range.
  assert (Hreq : requestedFile (mkRequest method (Url.RawQuery (locationOf key)) range)
                 = key) by apply (safe_key_comes_back key Hsafe).
  split; [exact Hreq|].
  rewrite handle_world, (stream_key _ _ _ Hc2) by now rewrite Hreq.
  rewrite Hreq.
  pose proof (downloadFile_calls o2 (clientOf o2) key
                (logCall (ListObjectsV2 (os_Getenv o1 "BUCKET_NAME")) w)) as Hcalls.
  destruct (downloadFile o2 (clientOf o2) key _) as [w2 [p|?]]; cbn [fst] in *;
    rewrite Hcalls; cbn [remoteCalls logCall clientOf bucketName];
    now rewrite <- List.app_assoc.
Qed.

Lemma follow_redirect_fetches_selected_key_witness :
  exists key location,
    In key ["a b.mp3"; "c#d?.mp3"] /\
    Http.Header
      (handle (steady [("a b.mp3", "abc"); ("c#d?.mp3", "def")] 3) (get "" "")
         emptyWorld).2 !! "Location" = Some location /\
    redirectedFile location = Some key.
Proof.
  destruct (follow_redirect_fetches_selected_key
              (steady [("a b.mp3", "abc"); ("c#d?.mp3", "def")] 3)
              (steady [("a b.mp3", "abc"); ("c#d?.mp3", "def")] 3)
              (get "" "") emptyWorld ["a b.mp3"; "c#d?.mp3"]
              (steady_configured _ _) (steady_configured _ _) eq_refl eq_refl)
    as (key & location & query & Hin & Hloc & _ & Hback & _).
  - discriminate.
  - apply mod_inRange.
  - intros k [<- | [<- | []]]; repeat split; discriminate.
  - exists key, location. split; [exact Hin|]. split; [exact Hloc | exact Hback].
Defined.

(** ** The answers the handler can give *)

Lemma selectRandomFile_error (Intn : nat -> nat) (fileNames : list string) (e : error) :
  selectRandomFile Intn fileNames = Err e -> fileNames = [].
Proof.
  unfold selectRandomFile. destruct fileNames; [reflexivity | discriminate].
Qed.

(** An error answer of the handler is one of five fixed messages, each
    with its fixed status; the error a collaborator returned is not part
    of it.  The handler answers 404 in one case only: no file is named
    and the listing of the store is empty. *)
Theorem stream_error_answers (o : Outside) (req : Request) (w : World)
  (msg : string) (code : nat) :
  (stream o req w).2 = http_Error msg code ->
  In (msg, code)
    [("Missing required environment variables", 500);
     ("Failed to create B2 client", 500);
     ("Failed to list files", 500);
     ("No files available", 404);
     ("Failed to download file", 500)] /\
  (code = 404 ->
   requestedFile req = "" /\ s3_ListObjectsV2 o (os_Getenv o "BUCKET_NAME") = Ok []).
Proof.
  unfold stream. fold (requestedFile req).
  destruct (_ || _ || _ || _).
  { intros [= <- <-]. split; [cbn; tauto | discriminate]. }
  unfold NewB2Client. destruct (config_LoadDefaultConfig o).
  { intros [= <- <-]. split; [cbn; tauto | discriminate]. }
  destruct (String.eqb (requestedFile req) "") eqn:Hf.
  - apply String.eqb_eq in Hf. unfold listFiles. cbn [bucketName].
    destruct (s3_ListObjectsV2 o _) as [l|?].
    + destruct (selectRandomFile (rand_Intn o) l) eqn:Hsel; [discriminate|].
      apply selectRandomFile_error in Hsel. subst l.
      intros [= <- <-]. split; [cbn; tauto | now split].
    + intros [= <- <-]. split; [cbn; tauto | discriminate].
  - destruct (downloadFile o _ (requestedFile req) w) as [w1 [p|?]]; [discriminate|].
    intros [= <- <-]. split; [cbn; tauto | discriminate].
Qed.

Lemma stream_error_answers_witness :
  requestedFile (get "file=" "") = "" /\
  s3_ListObjectsV2 (steady [] 0) "set" = Ok [].
Proof.
  destruct (stream_error_answers (steady [] 0) (get "file=" "") emptyWorld
              "No files available" 404 eq_refl) as [_ H404].
  apply H404. reflexivity.
Defined.

Lemma serveContent_status (req : Request) (content : string) :
  In (Http.StatusCode (Http.serveContent req content)) [200; 206; 416].
Proof.
  unfold Http.serveContent.
  destruct (Http.parseRange _ _) as [ranges| |].
  - destruct (_ <? _)%Z; [cbn; tauto|].
    destruct ranges as [|ra [|rb rest]]; cbn; tauto.
  - cbn; tauto.
  - destruct (_ =? _)%Z; [|cbn; tauto].
    cbn [Http.sumRangesSize fold_left].
    destruct (_ <? _)%Z; cbn; tauto.
Qed.

(** The handler serves a file only when a file is named and its download
    has succeeded during the same request: the file served is
    [cache/<named file>], it exists and holds the bytes just delivered,
    so the answer to a request without conditional headers is 200, 206 or
    416 and never the 404 of a missing file.  The handler redirects only
    when no file is named, with status 302, to the encoding of a key of
    the listing. *)
Theorem stream_reply_origin (o : Outside) (req : Request) (w w1 : World) :
  (forall name, stream o req w = (w1, http_ServeFile name) ->
     requestedFile req <> "" /\
     name = "cache/" ++ requestedFile req /\
     (exists body,
        s3_GetObject o (os_Getenv o "BUCKET_NAME") (requestedFile req) = Ok body /\
        files w1 !! name = Some (delivered body) /\
        (handle o req w).2 = Http.serveContent req (delivered body)) /\
     In (Http.StatusCode (handle o req w).2) [200; 206; 416]) /\
  (forall url code, stream o req w = (w1, http_Redirect url code) ->
     code = 302 /\ requestedFile req = "" /\
     exists listResult,
       s3_ListObjectsV2 o (os_Getenv o "BUCKET_NAME") = Ok listResult /\
       url = redirectURL (nth (rand_Intn o (length listResult)) listResult "") /\
       listResult <> []).
Proof.
  split.
  - intros name Hs.
    assert (Hh : (handle o req w).2 = respond w1 req (http_ServeFile name))
      by (unfold handle; now rewrite Hs).
    revert Hs. unfold stream. fold (requestedFile req).
    destruct (_ || _ || _ || _); [discriminate|].
    unfold NewB2Client. destruct (config_LoadDefaultConfig o); [discriminate|].
    destruct (String.eqb (requestedFile req) "") eqn:Hf.
    { unfold listFiles. destruct (s3_ListObjectsV2 o _) as [l|?];
        [destruct (selectRandomFile (rand_Intn o) l)|]; discriminate. }
    apply String.eqb_neq in Hf.
    destruct (downloadFile o _ (requestedFile req) w) as [w' [p|?]] eqn:Hd;
      [|discriminate].
    intros [= -> ->].
    destruct (downloadFile_ok_inv _ _ _ _ _ _ Hd) as (-> & body & Hget & Hfile).
    cbn [bucketName] in Hget.
    assert (Hserve : (handle o req w).2 = Http.serveContent req (delivered body)).
    { rewrite Hh. cbn [respond]. unfold Http.ServeFile. now rewrite Hfile. }
    split; [exact Hf|]. split; [reflexivity|]. split.
    + exists body. repeat split; assumption.
    + rewrite Hserve. apply serveContent_status.
  - intros url code. unfold stream. fold (requestedFile req).
    destruct (_ || _ || _ || _); [discriminate|].
    unfold NewB2Client. destruct (config_LoadDefaultConfig o); [discriminate|].
    destruct (String.eqb (requestedFile req) "") eqn:Hf.
    + apply String.eqb_eq in Hf. unfold listFiles. cbn [bucketName].
      destruct (s3_ListObjectsV2 o _) as [l|?]; [|discriminate].
      destruct l as [|k l]; [discriminate|].
      rewrite selectRandomFile_draw by discriminate.
      intros [= _ <- <-]. split; [reflexivity|]. split; [exact Hf|].
      exists (k :: l). repeat split. discriminate.
    + destruct (downloadFile o _ (requestedFile req) w) as [w' [p|?]]; discriminate.
Qed.

Lemma stream_reply_origin_witness :
  In (Http.StatusCode
        (handle (steady [("a.mp3", "abc")] 0) (get "file=a.mp3" "bytes=7-9") emptyWorld).2)
     [200; 206; 416].
Proof.
  destruct (stream_reply_origin (steady [("a.mp3", "abc")] 0)
              (get "file=a.mp3" "bytes=7-9") emptyWorld
              (stream (steady [("a.mp3", "abc")] 0)
                 (get "file=a.mp3" "bytes=7-9") emptyWorld).1) as [Hserve _].
  destruct (Hserve "cache/a.mp3" eq_refl) as (_ & _ & _ & Hstatus).
  exact Hstatus.
Defined.
